(** * media-exif: a shallow embedding of [main.py]

    The script walks a folder, pairs every media file with a JSON sidecar,
    and writes an updated copy of the media file into a mirrored output
    tree.  This development embeds the functions of [main.py] as Rocq
    functions over an explicit filesystem state and proves (or refutes)
    the properties the specification states about them.

    Conventions of the embedding:
    - a [Path] is the list of its components below the root;
    - the filesystem is a finite map from paths to nodes; permissions and
      symbolic links are not modelled, every path can be examined;
    - a Python exception is the [Raise] case of [result]; a [try] that
      catches [Exception] is a [match] on the result;
    - JSON values double as the Python values [json.load] produces
      ([JNull] is [None]);
    - strings are sequences of 8-bit characters and [str.lower] acts on
      the ASCII letters;
    - Python floats are embedded as exact rationals ([Q]);
    - the library calls the script makes (the JSON reader, piexif, Pillow,
      the exiftool process, the local clock) are parameters of the
      [Script] section. *)

From Stdlib Require Import ZArith QArith Qround Qabs Lqa String Ascii Lia.
From stdpp Require Import base option list gmap strings.

Open Scope string_scope.
Set Warnings "-register-all".

(** ** Exceptions *)

Inductive exn :=
| ValueError | TypeError | AttributeError | KeyError
| OSError | JSONDecodeError | LibraryError.

Inductive result (A : Type) :=
| Ok (a : A)
| Raise (e : exn).
Arguments Ok {A} a.
Arguments Raise {A} e.

Definition rbind {A B} (r : result A) (k : A -> result B) : result B :=
  match r with
  | Ok a => k a
  | Raise e => Raise e
  end.

Notation "x <-! r ; k" := (rbind r (fun x => k))
  (at level 100, r at next level, right associativity).

(** ** pathlib *)

Module Pathlib.

Abbreviation Path := (list string).

(** [str.rfind] for a single character. *)
Fixpoint rfind (c : ascii) (s : string) : option nat :=
  match s with
  | EmptyString => None
  | String a s' =>
      match rfind c s' with
      | Some i => Some (S i)
      | None => if Ascii.eqb a c then Some 0 else None
      end
  end.

(** [c in s] for a single character. *)
Fixpoint contains_char (c : ascii) (s : string) : bool :=
  match s with
  | EmptyString => false
  | String a s' => Ascii.eqb a c || contains_char c s'
  end.

Definition startswith_char (c : ascii) (s : string) : bool :=
  match s with
  | String a _ => Ascii.eqb a c
  | EmptyString => false
  end.

Definition name (p : Path) : string := List.last p "".

Definition parent (p : Path) : Path := List.removelast p.

(** [PurePath.suffix]: with [i = name.rfind('.')], the text [name[i:]] when
    [0 < i < len(name) - 1], and the empty string otherwise. *)
Definition name_suffix (n : string) : string :=
  match rfind "." n with
  | Some i =>
      if ((0 <? i) && (i <? String.length n - 1))%nat
      then substring i (String.length n - i) n
      else ""
  | None => ""
  end.

Definition suffix (p : Path) : string := name_suffix (name p).

(** [name[:-len(old_suffix)]] *)
Definition name_stem (n : string) : string :=
  substring 0 (String.length n - String.length (name_suffix n)) n.

Definition stem (p : Path) : string := name_stem (name p).

(** [PurePath.with_suffix]: [ValueError] for a suffix with a separator, a
    suffix that does not start with a dot or is only a dot, and for a path
    with an empty name. *)
Definition with_suffix (p : Path) (sfx : string) : result Path :=
  if contains_char "/" sfx then Raise ValueError
  else if (negb (String.eqb sfx "") && negb (startswith_char "." sfx))
          || String.eqb sfx "."
  then Raise ValueError
  else
    let n := name p in
    if String.eqb n "" then Raise ValueError
    else
      let old_suffix := suffix p in
      let n' := if String.eqb old_suffix "" then n ++ sfx
                else name_stem n ++ sfx in
      Ok (parent p ++ [n'])%list.

(** [str.lower] on the ASCII range. *)
Definition lower_ascii (a : ascii) : ascii :=
  let n := nat_of_ascii a in
  if ((65 <=? n) && (n <=? 90))%nat then ascii_of_nat (n + 32) else a.

Fixpoint lower (s : string) : string :=
  match s with
  | EmptyString => EmptyString
  | String a s' => String (lower_ascii a) (lower s')
  end.

(** [PurePath.relative_to]: strip the prefix [base], [ValueError] when
    [p] is not below [base]. *)
Fixpoint relative_to (p base : Path) {struct base} : result Path :=
  match base with
  | [] => Ok p
  | b :: base' =>
      match p with
      | [] => Raise ValueError
      | c :: p' => if String.eqb b c then relative_to p' base'
                   else Raise ValueError
      end
  end.

End Pathlib.
Import Pathlib.

(** ** Python values

    [json.load] yields Python values: [None], booleans, numbers, strings,
    lists and dicts.  A dict is an association list whose lookup takes the
    first binding of a key. *)

Inductive json :=
| JNull
| JBool (b : bool)
| JNum (q : Q)
| JStr (s : string)
| JArr (l : list json)
| JObj (kv : list (string * json)).

Fixpoint dict_lookup (k : string) (kv : list (string * json)) : option json :=
  match kv with
  | [] => None
  | (k', v) :: kv' => if String.eqb k k' then Some v else dict_lookup k kv'
  end.

(** [d[k] = v] on a dict: overwrite in place or append. *)
Fixpoint dict_set (k : string) (v : json) (kv : list (string * json))
  : list (string * json) :=
  match kv with
  | [] => [(k, v)]
  | (k', v') :: kv' =>
      if String.eqb k k' then (k, v) :: kv' else (k', v') :: dict_set k v kv'
  end.

(** [needle in hay] on strings. *)
Fixpoint substringb (needle hay : string) : bool :=
  String.prefix needle hay
  || match hay with
     | EmptyString => false
     | String _ hay' => substringb needle hay'
     end.

Definition is_str (k : string) (v : json) : bool :=
  match v with JStr s => String.eqb s k | _ => false end.

(** [k in v] *)
Definition py_contains (k : string) (v : json) : result bool :=
  match v with
  | JObj kv => Ok (match dict_lookup k kv with Some _ => true | None => false end)
  | JArr l => Ok (existsb (is_str k) l)
  | JStr s => Ok (substringb k s)
  | _ => Raise TypeError
  end.

(** [v.get(k, default)] *)
Definition py_get (v : json) (k : string) (default : json) : result json :=
  match v with
  | JObj kv => Ok (match dict_lookup k kv with Some x => x | None => default end)
  | _ => Raise AttributeError
  end.

(** [v[k]] for a string [k] *)
Definition py_getitem (v : json) (k : string) : result json :=
  match v with
  | JObj kv => match dict_lookup k kv with Some x => Ok x | None => Raise KeyError end
  | _ => Raise TypeError
  end.

Definition Qeq_zero (q : Q) : bool := (Qnum q =? 0)%Z.

(** Truth value of a Python object. *)
Definition truthy (v : json) : bool :=
  match v with
  | JNull => false
  | JBool b => b
  | JNum q => negb (Qeq_zero q)
  | JStr s => negb (String.eqb s "")
  | JArr l => match l with [] => false | _ => true end
  | JObj kv => match kv with [] => false | _ => true end
  end.

Definition is_none (v : json) : bool :=
  match v with JNull => true | _ => false end.

(** [', '.join(l)]: every item must be a [str]. *)
Fixpoint py_join (sep : string) (l : list json) : result string :=
  match l with
  | [] => Ok ""
  | JStr s :: l' =>
      match l' with
      | [] => Ok s
      | _ => rest <-! py_join sep l'; Ok (s ++ sep ++ rest)
      end
  | _ => Raise TypeError
  end.

(** A number as Python arithmetic sees it ([bool] is an [int]). *)
Definition as_number (v : json) : result Q :=
  match v with
  | JNum q => Ok q
  | JBool b => Ok (if b then 1%Q else 0%Q)
  | _ => Raise TypeError
  end.

(** [int(x)] on a float: truncation toward zero. *)
Definition py_int (x : Q) : Z := Z.quot (Qnum x) (Zpos (Qden x)).

(** ** EXIF dictionaries (piexif) *)

Inductive encoding := Utf8 | Utf16le.

Inductive exif_value :=
| Encoded (enc : encoding) (text : string)   (* [text.encode(enc)] *)
| Text (s : string)
| Rationals (r : list (Z * Z))
| Stored (raw : string).                      (* a value read from a file *)

Module ImageIFD.
Definition ImageDescription : Z := 270.
Definition DateTime : Z := 306.
Definition XPTitle : Z := 40091.
Definition XPComment : Z := 40092.
End ImageIFD.

Module ExifIFD.
Definition DateTimeOriginal : Z := 36867.
Definition DateTimeDigitized : Z := 36868.
End ExifIFD.

Module GPSIFD.
Definition GPSLatitudeRef : Z := 1.
Definition GPSLatitude : Z := 2.
Definition GPSLongitudeRef : Z := 3.
Definition GPSLongitude : Z := 4.
End GPSIFD.

Record exif := {
  ifd_0th : gmap Z exif_value;
  ifd_Exif : gmap Z exif_value;
  ifd_GPS : gmap Z exif_value;
  ifd_1st : gmap Z exif_value;
}.

Definition empty_exif : exif :=
  {| ifd_0th := ∅; ifd_Exif := ∅; ifd_GPS := ∅; ifd_1st := ∅ |}.

Definition set_0th (t : Z) (v : exif_value) (e : exif) : exif :=
  {| ifd_0th := <[t := v]> (ifd_0th e); ifd_Exif := ifd_Exif e;
     ifd_GPS := ifd_GPS e; ifd_1st := ifd_1st e |}.

Definition set_Exif (t : Z) (v : exif_value) (e : exif) : exif :=
  {| ifd_0th := ifd_0th e; ifd_Exif := <[t := v]> (ifd_Exif e);
     ifd_GPS := ifd_GPS e; ifd_1st := ifd_1st e |}.

Definition set_GPS (g : gmap Z exif_value) (e : exif) : exif :=
  {| ifd_0th := ifd_0th e; ifd_Exif := ifd_Exif e;
     ifd_GPS := g; ifd_1st := ifd_1st e |}.

(** [s.encode(enc)]: only a [str] has the method. *)
Definition py_encode (enc : encoding) (v : json) : result exif_value :=
  match v with
  | JStr s => Ok (Encoded enc s)
  | _ => Raise AttributeError
  end.

(** ** create_gps_exif *)

Definition to_degrees (value : Q) : (Z * Z) * (Z * Z) * (Z * Z) :=
  let value := Qabs value in
  let degrees := py_int value in
  let minutes := py_int ((value - inject_Z degrees) * 60)%Q in
  let seconds :=
    ((value - inject_Z degrees - inject_Z minutes / 60) * 3600)%Q in
  ((degrees, 1%Z), (minutes, 1%Z), (py_int (seconds * 100)%Q, 100%Z)).

Definition dms_value (d : (Z * Z) * (Z * Z) * (Z * Z)) : exif_value :=
  let '(a, b, c) := d in Rationals [a; b; c].

Definition lat_ref (lat : Q) : string := if Qle_bool 0 lat then "N" else "S".
Definition lon_ref (lon : Q) : string := if Qle_bool 0 lon then "E" else "W".

Definition create_gps_exif (lat lon : json) : result (gmap Z exif_value) :=
  la <-! as_number lat;
  lo <-! as_number lon;
  Ok (<[GPSIFD.GPSLongitude := dms_value (to_degrees lo)]>
      (<[GPSIFD.GPSLongitudeRef := Text (lon_ref lo)]>
      (<[GPSIFD.GPSLatitude := dms_value (to_degrees la)]>
      (<[GPSIFD.GPSLatitudeRef := Text (lat_ref la)]> ∅)))).

(** ** The filesystem *)

Inductive node :=
| Dir
| File (content : string).

Abbreviation fs := (gmap (list string) node).

(** The root always exists and is a directory. *)
Definition stat (st : fs) (p : Path) : option node :=
  match p with
  | [] => Some Dir
  | _ => st !! p
  end.

Definition exists_ (st : fs) (p : Path) : bool :=
  match stat st p with Some _ => true | None => false end.

Definition is_file (st : fs) (p : Path) : bool :=
  match stat st p with Some (File _) => true | _ => false end.

Definition is_dir (st : fs) (p : Path) : bool :=
  match stat st p with Some Dir => true | _ => false end.

(** The non-empty prefixes of a path, shortest first. *)
Definition prefixes (p : Path) : list Path :=
  map (fun n => take n p) (seq 1 (length p)).

(** [p.mkdir(parents=True, exist_ok=True)]: fails, creating nothing, when a
    component of [p] is a file; otherwise every missing component becomes a
    directory. *)
Definition mkdir_parents (st : fs) (p : Path) : result fs :=
  if existsb (is_file st) (prefixes p) then Raise OSError
  else Ok (foldr (fun d acc => <[d := Dir]> acc) st (prefixes p)).

Definition read_file (st : fs) (p : Path) : result string :=
  match stat st p with
  | Some (File c) => Ok c
  | _ => Raise OSError
  end.

(** Opening [p] for writing and storing [content]. *)
Definition write_file (st : fs) (p : Path) (content : string) : result fs :=
  if is_dir st p then Raise OSError
  else if negb (is_dir st (parent p)) then Raise OSError
  else Ok (<[p := File content]> st).

(** [shutil.copy2(src, dst)]: a directory [dst] receives the file under the
    source's name; copying a file onto itself is an error. *)
Definition copy2 (st : fs) (src dst : Path) : result fs :=
  content <-! read_file st src;
  let dst' := if is_dir st dst then (dst ++ [name src])%list else dst in
  if bool_decide (src = dst') then Raise OSError
  else write_file st dst' content.

(** [str(path)] *)
Definition path_str (p : Path) : string :=
  match p with
  | [] => "/"
  | _ => fold_right (fun c acc => "/" ++ c ++ acc) "" p
  end.

Fixpoint split_on (c : ascii) (s : string) : list string :=
  match s with
  | EmptyString => [""]
  | String a s' =>
      if Ascii.eqb a c then "" :: split_on c s'
      else match split_on c s' with
           | h :: t => String a h :: t
           | [] => [String a ""]
           end
  end.

(** [p / s]: the string is parsed into components; an absolute string
    replaces [p]. *)
Definition joinpath (p : Path) (s : string) : Path :=
  let parts :=
    List.filter (fun x => negb (String.eqb x "") && negb (String.eqb x "."))
           (split_on "/" s) in
  if startswith_char "/" s then parts else (p ++ parts)%list.

(** ** Supported extensions *)

Definition IMAGE_EXTENSIONS : list string :=
  [".jpg"; ".jpeg"; ".png"; ".tiff"; ".tif"].
Definition VIDEO_EXTENSIONS : list string :=
  [".mp4"; ".mov"; ".avi"; ".mkv"; ".m4v"].
(** Set union of the two. *)
Definition ALL_MEDIA_EXTENSIONS : list string :=
  (IMAGE_EXTENSIONS ++ VIDEO_EXTENSIONS)%list.

Definition in_set (x : string) (s : list string) : bool :=
  existsb (String.eqb x) s.

(** ** find_media_files *)

(** The directories [os.walk(folder)] has to list before it yields [p]:
    [folder] and every directory between [folder] and [p]. *)
Definition walk_dirs (folder p : Path) : list Path :=
  map (fun n => take n p) (seq (length folder) (length p - length folder)).

(** [p] is a file that [os.walk(folder)] yields. *)
Definition walked (st : fs) (folder p : Path) : bool :=
  (length folder <? length p)%nat
  && bool_decide (take (length folder) p = folder)
  && forallb (is_dir st) (walk_dirs folder p)
  && is_file st p.

(** The order in which [os.walk] yields files is the operating system's;
    here it is the map's enumeration order. *)
Definition find_media_files (st : fs) (folder : Path) : list Path :=
  List.filter (fun file_path =>
            walked st folder file_path
            && in_set (lower (suffix file_path)) ALL_MEDIA_EXTENSIONS)
         (map fst (map_to_list st)).

(** ** find_json_file *)

Definition find_json_file (st : fs) (media_file : Path) : result (option Path) :=
  json_file <-! with_suffix media_file (suffix media_file ++ ".suppl.json");
  if exists_ st json_file then Ok (Some json_file) else
  json_file <-! with_suffix media_file
                  (suffix media_file ++ ".supplemental-metadata.json");
  if exists_ st json_file then Ok (Some json_file) else
  json_file <-! with_suffix media_file (suffix media_file ++ ".json");
  if exists_ st json_file then Ok (Some json_file) else
  json_file_alt <-! with_suffix media_file ".json";
  if exists_ st json_file_alt then Ok (Some json_file_alt) else
  Ok None.

(** ** What the script prints, and which writer it calls

    The trace of a run: the outcome lines the script prints (the
    "Setting ..." progress lines of the image writer are left out), and a
    mark for each call of a writer and for the final fall-through of
    [process_media_file], which print nothing themselves. *)

Inductive event :=
| NoJsonFound (media_file : Path)
| ErrorLoading (json_file : Path)
| DryRunWouldUpdate (media_file output_file json_file : Path)
| CallImageWriter (media_file : Path)
| CallVideoWriter (media_file : Path)
| UnsupportedType (media_file : Path)
| ErrorUpdatingExif (image_file : Path)
| ExiftoolNotInstalled
| ExiftoolError (video_file : Path) (stderr : string)
| ErrorUpdatingMetadata (video_file : Path)
| UpdatedImage (media_file output_file : Path)
| UpdatedVideo (media_file output_file : Path).

(** How [subprocess.run] ended: the process exited, or there is no such
    program ([FileNotFoundError]). *)
Inductive completed :=
| Exited (returncode : Z)
| NotFound.

Record counts := {
  success_count : nat;
  skipped_count : nat;
  error_count : nat;
}.

Inductive run_result :=
| Exit1
| NoMediaFiles
| Summary (c : counts).

Section Script.

(** The libraries and the environment of one run. *)
Variable json_loads : string -> result json.
Variable int_of_str : string -> result Z.
Variable strftime_local : json -> result string.
Variable py_repr : json -> string.
Variable piexif_load : string -> result exif.
Variable piexif_dump : exif -> result string.
Variable image_save : string -> string -> string -> result string.
Variable exiftool_ver : completed.
Variable exiftool : list string -> fs -> result (Z * string * fs).

(** *** load_json_metadata *)

Definition load_json_metadata (st : fs) (json_file : Path)
  : option json * list event :=
  match (text <-! read_file st json_file; json_loads text) with
  | Ok JNull => (None, [])
  | Ok v => (Some v, [])
  | Raise _ => (None, [ErrorLoading json_file])
  end.

(** *** convert_timestamp_to_exif *)

Definition convert_timestamp_to_exif (timestamp : json) : result string :=
  timestamp <-! match timestamp with
                | JStr s => z <-! int_of_str s; Ok (JNum (inject_Z z))
                | _ => Ok timestamp
                end;
  strftime_local timestamp.

(** *** update_image_exif *)

(** [k1 in metadata or k2 in metadata] *)
Definition contains_or (metadata : json) (k1 k2 : string) : result bool :=
  has <-! py_contains k1 metadata;
  if has then Ok true else py_contains k2 metadata.

(** [metadata.get(k1) or metadata.get(k2)] *)
Definition get_or (metadata : json) (k1 k2 : string) : result json :=
  a <-! py_get metadata k1 JNull;
  if truthy a then Ok a else py_get metadata k2 JNull.

Definition exif_set_datetime (metadata : json) (exif_dict : exif) : result exif :=
  has <-! py_contains "photoTakenTime" metadata;
  if has then
    taken <-! py_get metadata "photoTakenTime" (JObj []);
    timestamp <-! py_get taken "timestamp" JNull;
    if is_none timestamp then Ok exif_dict else
    date_time <-! convert_timestamp_to_exif timestamp;
    Ok (set_Exif ExifIFD.DateTimeDigitized (Encoded Utf8 date_time)
       (set_Exif ExifIFD.DateTimeOriginal (Encoded Utf8 date_time)
       (set_0th ImageIFD.DateTime (Encoded Utf8 date_time) exif_dict)))
  else Ok exif_dict.

Definition exif_set_title (metadata : json) (exif_dict : exif) : result exif :=
  has <-! contains_or metadata "title" "Title";
  if has then
    title <-! get_or metadata "title" "Title";
    if is_none title then Ok exif_dict else
    v <-! py_encode Utf16le title;
    Ok (set_0th ImageIFD.XPTitle v exif_dict)
  else Ok exif_dict.

Definition exif_set_description (metadata : json) (exif_dict : exif) : result exif :=
  has <-! contains_or metadata "description" "Description";
  if has then
    desc <-! get_or metadata "description" "Description";
    if is_none desc then Ok exif_dict else
    v <-! py_encode Utf8 desc;
    Ok (set_0th ImageIFD.ImageDescription v exif_dict)
  else Ok exif_dict.

(** [[p.get('name') for p in people if 'name' in p]] *)
Fixpoint people_names (people : list json) : result (list json) :=
  match people with
  | [] => Ok []
  | p :: rest =>
      has <-! py_contains "name" p;
      if has then
        n <-! py_get p "name" JNull;
        ns <-! people_names rest;
        Ok (n :: ns)
      else people_names rest
  end.

(** The [people_str] of a [people] list. *)
Definition people_str (people : list json) : result string :=
  names <-! people_names people;
  py_join ", " names.

Definition exif_set_people (metadata : json) (exif_dict : exif) : result exif :=
  has <-! py_contains "people" metadata;
  if has then
    people <-! py_getitem metadata "people";
    match people with
    | JArr l =>
        s <-! people_str l;
        Ok (set_0th ImageIFD.XPComment (Encoded Utf16le s) exif_dict)
    | _ => Ok exif_dict
    end
  else Ok exif_dict.

Definition exif_set_gps (metadata : json) (exif_dict : exif) : result exif :=
  has <-! py_contains "geoData" metadata;
  if has then
    geo <-! py_getitem metadata "geoData";
    if is_none geo then Ok exif_dict else
    has_lat <-! py_contains "latitude" geo;
    has_both <-! (if has_lat then py_contains "longitude" geo else Ok false);
    if has_both then
      lat <-! py_getitem geo "latitude";
      lon <-! py_getitem geo "longitude";
      if is_none lat || is_none lon then Ok exif_dict else
      gps <-! create_gps_exif lat lon;
      Ok (set_GPS gps exif_dict)
    else Ok exif_dict
  else Ok exif_dict.

(** The EXIF dictionary the image is saved with. *)
Definition image_exif (st : fs) (image_file : Path) (metadata : json) : result exif :=
  let exif_dict :=
    match (raw <-! read_file st image_file; piexif_load raw) with
    | Ok d => d
    | Raise _ => empty_exif
    end in
  exif_dict <-! exif_set_datetime metadata exif_dict;
  exif_dict <-! exif_set_title metadata exif_dict;
  exif_dict <-! exif_set_description metadata exif_dict;
  exif_dict <-! exif_set_people metadata exif_dict;
  exif_set_gps metadata exif_dict.

Definition update_image_exif (st : fs) (image_file output_file : Path)
    (metadata : json) : bool * fs * list event :=
  match (e <-! image_exif st image_file metadata; piexif_dump e) with
  | Raise _ => (false, st, [ErrorUpdatingExif image_file])
  | Ok exif_bytes =>
      match mkdir_parents st (parent output_file) with
      | Raise _ => (false, st, [ErrorUpdatingExif image_file])
      | Ok st1 =>
          match (img <-! read_file st1 image_file;
                 out <-! image_save img exif_bytes (name output_file);
                 write_file st1 output_file out) with
          | Raise _ => (false, st1, [ErrorUpdatingExif image_file])
          | Ok st2 => (true, st2, [])
          end
      end
  end.

(** *** check_exiftool_installed *)

(** [subprocess.run(..., check=True)] raises [CalledProcessError] on a
    non-zero exit and [FileNotFoundError] when there is no such program;
    both are caught. *)
Definition check_exiftool_installed : bool :=
  match exiftool_ver with
  | Exited 0 => true
  | Exited _ => false
  | NotFound => false
  end.

(** *** update_video_exif *)

(** [f'{v}'] *)
Definition py_str (v : json) : string :=
  match v with
  | JStr s => s
  | _ => py_repr v
  end.

Definition video_cmd (metadata : json) (output_file : Path) : result (list string) :=
  let cmd := ["exiftool"; "-overwrite_original"] in
  has <-! contains_or metadata "dateTime" "DateTime";
  cmd <-! (if has then
             date_time <-! get_or metadata "dateTime" "DateTime";
             Ok (cmd ++ ["-CreateDate=" +:+ py_str date_time;
                         "-ModifyDate=" +:+ py_str date_time])%list
           else Ok cmd);
  has <-! contains_or metadata "description" "Description";
  cmd <-! (if has then
             desc <-! get_or metadata "description" "Description";
             Ok (cmd ++ ["-Description=" +:+ py_str desc])%list
           else Ok cmd);
  has <-! contains_or metadata "make" "Make";
  cmd <-! (if has then
             make <-! get_or metadata "make" "Make";
             Ok (cmd ++ ["-Make=" +:+ py_str make])%list
           else Ok cmd);
  has <-! contains_or metadata "model" "Model";
  cmd <-! (if has then
             model <-! get_or metadata "model" "Model";
             Ok (cmd ++ ["-Model=" +:+ py_str model])%list
           else Ok cmd);
  has_lat <-! py_contains "gpsLatitude" metadata;
  has_both <-! (if has_lat then py_contains "gpsLongitude" metadata else Ok false);
  cmd <-! (if has_both then
             lat <-! py_getitem metadata "gpsLatitude";
             lon <-! py_getitem metadata "gpsLongitude";
             Ok (cmd ++ ["-GPSLatitude=" +:+ py_str lat;
                         "-GPSLongitude=" +:+ py_str lon])%list
           else Ok cmd);
  Ok (cmd ++ [path_str output_file])%list.

Definition update_video_exif (st : fs) (video_file output_file : Path)
    (metadata : json) : bool * fs * list event :=
  if negb check_exiftool_installed then (false, st, [ExiftoolNotInstalled])
  else
    match mkdir_parents st (parent output_file) with
    | Raise _ => (false, st, [ErrorUpdatingMetadata video_file])
    | Ok st1 =>
        match copy2 st1 video_file output_file with
        | Raise _ => (false, st1, [ErrorUpdatingMetadata video_file])
        | Ok st2 =>
            match (cmd <-! video_cmd metadata output_file; exiftool cmd st2) with
            | Raise _ => (false, st2, [ErrorUpdatingMetadata video_file])
            | Ok (returncode, stderr, st3) =>
                if (returncode =? 0)%Z then (true, st3, [])
                else (false, st3, [ExiftoolError video_file stderr])
            end
        end
    end.

(** *** process_media_file *)

Definition is_image (media_file : Path) : bool :=
  in_set (lower (suffix media_file)) IMAGE_EXTENSIONS.
Definition is_video (media_file : Path) : bool :=
  in_set (lower (suffix media_file)) VIDEO_EXTENSIONS.

Definition process_media_file (st : fs) (media_file source_folder output_folder : Path)
    (dry_run : bool) : result (bool * fs * list event) :=
  json_file <-! find_json_file st media_file;
  match json_file with
  | None => Ok (true, st, [NoJsonFound media_file])
  | Some json_file =>
      match load_json_metadata st json_file with
      | (None, out) => Ok (false, st, out)
      | (Some metadata, out) =>
          relative_path <-! relative_to media_file source_folder;
          let output_file := (output_folder ++ relative_path)%list in
          if dry_run then
            Ok (true, st, out ++ [DryRunWouldUpdate media_file output_file json_file])%list
          else if is_image media_file then
            let '(success, st', out') :=
              update_image_exif st media_file output_file metadata in
            Ok (success, st',
                out ++ [CallImageWriter media_file] ++ out'
                ++ (if success then [UpdatedImage media_file output_file] else []))%list
          else if is_video media_file then
            let '(success, st', out') :=
              update_video_exif st media_file output_file metadata in
            Ok (success, st',
                out ++ [CallVideoWriter media_file] ++ out'
                ++ (if success then [UpdatedVideo media_file output_file] else []))%list
          else Ok (false, st, out ++ [UnsupportedType media_file])%list
      end
  end.

(** *** main *)

Definition zero_counts : counts :=
  {| success_count := 0; skipped_count := 0; error_count := 0 |}.

(** One iteration of the loop of [main]. *)
Definition main_step (folder output_folder : Path) (dry_run : bool)
    (acc : counts * fs * list event) (media_file : Path)
  : result (counts * fs * list event) :=
  let '(c, st, out) := acc in
  json_file <-! find_json_file st media_file;
  match json_file with
  | None =>
      Ok ({| success_count := success_count c;
             skipped_count := skipped_count c + 1;
             error_count := error_count c |}, st, out)
  | Some _ =>
      r <-! process_media_file st media_file folder output_folder dry_run;
      let '(success, st', out') := r in
      if success : bool then
        Ok ({| success_count := success_count c + 1;
               skipped_count := skipped_count c;
               error_count := error_count c |}, st', out ++ out')%list
      else
        Ok ({| success_count := success_count c;
               skipped_count := skipped_count c;
               error_count := error_count c + 1 |}, st', out ++ out')%list
  end.

Fixpoint main_loop (folder output_folder : Path) (dry_run : bool)
    (media_files : list Path) (acc : counts * fs * list event)
  : result (counts * fs * list event) :=
  match media_files with
  | [] => Ok acc
  | media_file :: rest =>
      acc' <-! main_step folder output_folder dry_run acc media_file;
      main_loop folder output_folder dry_run rest acc'
  end.

Definition output_folder_of (folder : Path) (output_suffix : string) : Path :=
  joinpath (parent folder) (name folder ++ output_suffix).

Definition main (st : fs) (folder : Path) (dry_run : bool) (output_suffix : string)
  : result (run_result * fs * list event) :=
  if negb (exists_ st folder) then Ok (Exit1, st, [])
  else if negb (is_dir st folder) then Ok (Exit1, st, [])
  else
    let output_folder := output_folder_of folder output_suffix in
    let media_files := find_media_files st folder in
    match media_files with
    | [] => Ok (NoMediaFiles, st, [])
    | _ =>
        r <-! main_loop folder output_folder dry_run media_files (zero_counts, st, []);
        let '(c, st', out) := r in
        Ok (Summary c, st', out)
    end.

End Script.

(** ** A reference JSON reader

    [json.loads] restricted to what the examples below need: ASCII text,
    no [\u] escapes, no [NaN]/[Infinity].  Anything outside is rejected.
    Later bindings of a repeated key overwrite earlier ones, as in
    Python. *)

Module JsonRef.

Definition dquote : ascii := ascii_of_nat 34.

(** Sidecar texts are written below with ['] where the file has a double
    quote; [text] puts the double quotes back. *)
Fixpoint text (s : string) : string :=
  match s with
  | EmptyString => EmptyString
  | String a r => String (if Ascii.eqb a "'" then dquote else a) (text r)
  end.

Definition is_ws (a : ascii) : bool :=
  let n := nat_of_ascii a in
  ((n =? 32) || (n =? 9) || (n =? 10) || (n =? 13))%nat.

Definition is_digit (a : ascii) : bool :=
  let n := nat_of_ascii a in ((48 <=? n) && (n <=? 57))%nat.

Fixpoint skip_ws (s : string) : string :=
  match s with
  | String a r => if is_ws a then skip_ws r else s
  | EmptyString => s
  end.

Fixpoint take_digits (s : string) : list Z * string :=
  match s with
  | String a r =>
      if is_digit a then
        let '(ds, r') := take_digits r in
        ((Z.of_nat (nat_of_ascii a) - 48)%Z :: ds, r')
      else ([], s)
  | EmptyString => ([], s)
  end.

Definition digits_value (ds : list Z) : Z :=
  fold_left (fun acc d => acc * 10 + d)%Z ds 0%Z.

Definition scale (q : Q) (e : Z) : Q :=
  if (0 <=? e)%Z then (q * inject_Z (10 ^ e))%Q
  else (q / inject_Z (10 ^ (- e)))%Q.

Definition parse_exponent (s : string) : option (Z * string) :=
  match s with
  | String a r =>
      if Ascii.eqb a "e" || Ascii.eqb a "E" then
        let '(neg, r1) :=
          match r with
          | String b r' =>
              if Ascii.eqb b "-" then (true, r')
              else if Ascii.eqb b "+" then (false, r')
              else (false, r)
          | EmptyString => (false, r)
          end in
        match take_digits r1 with
        | ([], _) => None
        | (ds, r2) =>
            Some (if neg : bool then (- digits_value ds)%Z else digits_value ds, r2)
        end
      else Some (0%Z, s)
  | EmptyString => Some (0%Z, s)
  end.

Definition parse_number (s : string) : option (json * string) :=
  let '(neg, s1) :=
    match s with
    | String a r => if Ascii.eqb a "-" then (true, r) else (false, s)
    | EmptyString => (false, s)
    end in
  match take_digits s1 with
  | ([], _) => None
  | (0%Z :: _ :: _, _) => None
  | (ip, s2) =>
      let frac :=
        match s2 with
        | String a r =>
            if Ascii.eqb a "." then
              match take_digits r with
              | ([], _) => None
              | (ds, r') => Some (ds, r')
              end
            else Some ([], s2)
        | EmptyString => Some ([], s2)
        end in
      match frac with
      | None => None
      | Some (fp, s3) =>
          match parse_exponent s3 with
          | None => None
          | Some (e, s4) =>
              let mant :=
                (inject_Z (digits_value (ip ++ fp))
                 / inject_Z (10 ^ Z.of_nat (length fp)))%Q in
              let v := scale mant e in
              Some (JNum (Qred (if neg : bool then - v else v)%Q), s4)
          end
      end
  end.

Definition unescape (a : ascii) : option ascii :=
  if Ascii.eqb a dquote then Some dquote
  else if Ascii.eqb a "\" then Some "\"%char
  else if Ascii.eqb a "/" then Some "/"%char
  else if Ascii.eqb a "b" then Some "008"%char
  else if Ascii.eqb a "f" then Some "012"%char
  else if Ascii.eqb a "n" then Some "010"%char
  else if Ascii.eqb a "r" then Some "013"%char
  else if Ascii.eqb a "t" then Some "009"%char
  else None.

(** The text after an opening quote, up to the closing one. *)
Fixpoint parse_string (s : string) : option (string * string) :=
  match s with
  | EmptyString => None
  | String a r =>
      if Ascii.eqb a dquote then Some ("", r)
      else if Ascii.eqb a "\" then
        match r with
        | String e r' =>
            match unescape e, parse_string r' with
            | Some c, Some (t, rest) => Some (String c t, rest)
            | _, _ => None
            end
        | EmptyString => None
        end
      else if (nat_of_ascii a <? 32)%nat || (127 <? nat_of_ascii a)%nat then None
      else
        match parse_string r with
        | Some (t, rest) => Some (String a t, rest)
        | None => None
        end
  end.

Definition expect (lit : string) (v : json) (s : string) : option (json * string) :=
  if String.prefix lit s
  then Some (v, substring (String.length lit) (String.length s - String.length lit) s)
  else None.

Fixpoint parse_value (fuel : nat) (s : string) : option (json * string) :=
  match fuel with
  | O => None
  | S fuel' =>
      match skip_ws s with
      | EmptyString => None
      | String a r as s' =>
          if Ascii.eqb a "[" then
            match skip_ws r with
            | String b r' =>
                if Ascii.eqb b "]" then Some (JArr [], r')
                else match parse_elements fuel' r with
                     | Some (vs, rest) => Some (JArr vs, rest)
                     | None => None
                     end
            | EmptyString => None
            end
          else if Ascii.eqb a "{" then
            match skip_ws r with
            | String b r' =>
                if Ascii.eqb b "}" then Some (JObj [], r')
                else match parse_members fuel' r with
                     | Some (kvs, rest) =>
                         Some (JObj (fold_left (fun d kv => dict_set (fst kv) (snd kv) d)
                                               kvs []), rest)
                     | None => None
                     end
            | EmptyString => None
            end
          else if Ascii.eqb a dquote then
            match parse_string r with
            | Some (t, rest) => Some (JStr t, rest)
            | None => None
            end
          else if Ascii.eqb a "n" then expect "null" JNull s'
          else if Ascii.eqb a "t" then expect "true" (JBool true) s'
          else if Ascii.eqb a "f" then expect "false" (JBool false) s'
          else parse_number s'
      end
  end
with parse_elements (fuel : nat) (s : string) : option (list json * string) :=
  match fuel with
  | O => None
  | S fuel' =>
      match parse_value fuel' s with
      | Some (v, r) =>
          match skip_ws r with
          | String a r' =>
              if Ascii.eqb a "," then
                match parse_elements fuel' r' with
                | Some (vs, rest) => Some (v :: vs, rest)
                | None => None
                end
              else if Ascii.eqb a "]" then Some ([v], r')
              else None
          | EmptyString => None
          end
      | None => None
      end
  end
with parse_members (fuel : nat) (s : string) : option (list (string * json) * string) :=
  match fuel with
  | O => None
  | S fuel' =>
      match skip_ws s with
      | String q r =>
          if Ascii.eqb q dquote then
            match parse_string r with
            | Some (k, r1) =>
                match skip_ws r1 with
                | String c r2 =>
                    if Ascii.eqb c ":" then
                      match parse_value fuel' r2 with
                      | Some (v, r3) =>
                          match skip_ws r3 with
                          | String a r4 =>
                              if Ascii.eqb a "," then
                                match parse_members fuel' r4 with
                                | Some (kvs, rest) => Some ((k, v) :: kvs, rest)
                                | None => None
                                end
                              else if Ascii.eqb a "}" then Some ([(k, v)], r4)
                              else None
                          | EmptyString => None
                          end
                      | None => None
                      end
                    else None
                | EmptyString => None
                end
            | None => None
            end
          else None
      | EmptyString => None
      end
  end.

Definition loads (s : string) : result json :=
  match parse_value (2 * String.length s + 2) s with
  | Some (v, rest) =>
      match skip_ws rest with
      | EmptyString => Ok v
      | _ => Raise JSONDecodeError
      end
  | None => Raise JSONDecodeError
  end.

End JsonRef.

(** ** The sidecar naming conventions, as the specification lists them *)

Definition sidecar_candidates (media_file : Path) : list Path :=
  [ (parent media_file ++ [name media_file +:+ ".suppl.json"])%list;
    (parent media_file ++ [name media_file +:+ ".supplemental-metadata.json"])%list;
    (parent media_file ++ [name media_file +:+ ".json"])%list;
    (parent media_file ++ [stem media_file +:+ ".json"])%list ].

(** ** Counting *)



(** A file that [find_media_files] can yield for [folder]: it lies below
    [folder] and its lowercased suffix is supported. *)
Definition discovered (folder media_file : Path) : Prop :=
  take (length folder) media_file = folder
  /\ in_set (lower (suffix media_file)) ALL_MEDIA_EXTENSIONS = true.

(** ** Reading a trace *)

Definition is_writer_call (e : event) : bool :=
  match e with
  | CallImageWriter _ | CallVideoWriter _ => true
  | _ => false
  end.

Definition is_unsupported (e : event) : bool :=
  match e with
  | UnsupportedType _ => true
  | _ => false
  end.

Definition is_no_json (e : event) : bool :=
  match e with
  | NoJsonFound _ => true
  | _ => false
  end.

Definition is_error_loading (e : event) : bool :=
  match e with
  | ErrorLoading _ => true
  | _ => false
  end.

Definition is_would_update (e : event) : bool :=
  match e with
  | DryRunWouldUpdate _ _ _ => true
  | _ => false
  end.

(** Events of the resolution and decoding steps. *)
Definition is_resolution_or_decode (e : event) : bool :=
  is_no_json e || is_error_loading e.

Definition writer_calls (out : list event) : nat :=
  length (List.filter is_writer_call out).

(** A trace without resolution, decoding or dispatch events. *)
Definition quiet (out : list event) : Prop :=
  List.filter is_resolution_or_decode out = []
  /\ List.filter is_writer_call out = []
  /\ existsb is_unsupported out = false
  /\ existsb is_would_update out = false.

(** ** Stand-ins for the libraries, for evaluating the script *)

Module Doubles.

(** [int(s)] for an optionally signed run of decimal digits. *)
Definition int_of_str (s : string) : result Z :=
  let '(neg, s1) :=
    match s with
    | String a r => if Ascii.eqb a "-" then (true, r) else (false, s)
    | EmptyString => (false, s)
    end in
  match JsonRef.take_digits s1 with
  | (_ :: _ as ds, EmptyString) =>
      Ok (if neg : bool then (- JsonRef.digits_value ds)%Z else JsonRef.digits_value ds)
  | _ => Raise ValueError
  end.

(** The examples carry no timestamp; the clock is never consulted. *)
Definition strftime_local (t : json) : result string := Raise LibraryError.

Definition py_repr (v : json) : string := "?".

(** Source images without an EXIF block: [piexif.load] raises. *)
Definition piexif_load (raw : string) : result exif := Raise LibraryError.

Definition piexif_dump (e : exif) : result string := Ok "Exif".

(** A saved image: the EXIF bytes followed by the pixels. *)
Definition image_save (img exif_bytes out_name : string) : result string :=
  Ok (exif_bytes +:+ img).

(** An exiftool that accepts the file. *)
Definition exiftool_ok (cmd : list string) (st : fs) : result (Z * string * fs) :=
  Ok (0%Z, "", st).

(** An exiftool that rejects the file and leaves it as it is. *)
Definition exiftool_fails (cmd : list string) (st : fs) : result (Z * string * fs) :=
  Ok (1%Z, "Error: File format error", st).

(** A tree with one image and its sidecar, and one video without. *)
Definition tree : fs :=
  {[ ["photos"] := Dir;
     ["photos"; "a.jpg"] := File "JPEG";
     ["photos"; "a.jpg.json"] := File (JsonRef.text "{'title': 'Trip'}");
     ["photos"; "b.mp4"] := File "MP4" ]}.

(** A tree with one video and its sidecar. *)
Definition video_tree : fs :=
  {[ ["photos"] := Dir;
     ["photos"; "clip.mp4"] := File "MP4";
     ["photos"; "clip.mp4.json"] := File (JsonRef.text "{'description': 'Beach'}") ]}.

(** A tree with one image whose sidecar holds a JSON list. *)
Definition list_tree : fs :=
  {[ ["photos"] := Dir;
     ["photos"; "a.jpg"] := File "JPEG";
     ["photos"; "a.jpg.json"] := File "[]" ]}.

(** [main] with the stand-ins, exiftool installed and behaving as [tool]. *)
Definition run (tool : list string -> fs -> result (Z * string * fs))
    (st : fs) (dry_run : bool) : result (run_result * fs * list event) :=
  main JsonRef.loads int_of_str strftime_local py_repr piexif_load piexif_dump
       image_save (Exited 0) tool st ["photos"] dry_run "-exif".

End Doubles.

(** ** More stand-ins *)

Module MoreDoubles.

(** A clock for the examples: the text for 1700000000 in UTC. *)
Definition fixed_clock (t : json) : result string := Ok "2023:11:14 22:13:20".

End MoreDoubles.

(** ** The coordinate conversion, as the specification words it *)



(** ** People and titles, as the specification words them *)

(** The name of a [people] entry that has one. *)
Definition entry_name (p : json) : option string :=
  match p with
  | JObj kv =>
      match dict_lookup "name" kv with
      | Some (JStr s) => Some s
      | _ => None
      end
  | _ => None
  end.

(** A [people] entry of the expected shape: an object whose [name], when
    present, is a string. *)
Definition is_person (p : json) : bool :=
  match p with
  | JObj kv =>
      match dict_lookup "name" kv with
      | Some (JStr _) | None => true
      | Some _ => false
      end
  | _ => false
  end.

(** Names that are present and non-empty, joined. *)
Definition people_str_spec (people : list json) : string :=
  String.concat ", "
    (List.filter (fun s => negb (String.eqb s "")) (omap entry_name people)).

(** First present wins. *)
Definition first_present (kv : list (string * json)) (k1 k2 : string) : json :=
  match dict_lookup k1 kv with
  | Some v => v
  | None => match dict_lookup k2 kv with Some v => v | None => JNull end
  end.

(** The tag the image writer stores for a sidecar text. *)
Definition embedded_tag (set : json -> exif -> result exif) (tag : Z)
    (sidecar : string) : result (option exif_value) :=
  metadata <-! JsonRef.loads (JsonRef.text sidecar);
  e <-! set metadata empty_exif;
  Ok (ifd_0th e !! tag).

(** The media file and the output path an outcome line names. *)
Definition reported_output (e : event) : option (Path * Path) :=
  match e with
  | UpdatedImage m o | UpdatedVideo m o | DryRunWouldUpdate m o _ => Some (m, o)
  | _ => None
  end.

(** ** How a file stands before it is written *)



(** ** Reading the EXIF dictionary of an image *)

(** The dictionary [update_image_exif] starts from: the one piexif loads
    from the image, or the empty one when loading raises. *)
Definition loaded_exif (piexif_load : string -> result exif) (st : fs)
    (image_file : Path) : exif :=
  match (raw <-! read_file st image_file; piexif_load raw) with
  | Ok d => d
  | Raise _ => empty_exif
  end.

(** The tags of the 0th and Exif IFDs the image writer may assign. *)
Definition written_0th : list Z :=
  [ImageIFD.DateTime; ImageIFD.XPTitle; ImageIFD.ImageDescription; ImageIFD.XPComment].
Definition written_Exif : list Z :=
  [ExifIFD.DateTimeOriginal; ExifIFD.DateTimeDigitized].
Definition written_GPS : list Z :=
  [GPSIFD.GPSLatitudeRef; GPSIFD.GPSLatitude; GPSIFD.GPSLongitudeRef;
   GPSIFD.GPSLongitude].

(** [e'] differs from [e] at most in the assigned tags, and its GPS block
    is the one of [e] or holds the four assigned tags and nothing else. *)
Definition keeps_other_tags (e e' : exif) : Prop :=
  ifd_1st e' = ifd_1st e
  /\ (forall t, ~ In t written_0th -> ifd_0th e' !! t = ifd_0th e !! t)
  /\ (forall t, ~ In t written_Exif -> ifd_Exif e' !! t = ifd_Exif e !! t)
  /\ (ifd_GPS e' = ifd_GPS e
      \/ forall t, is_Some (ifd_GPS e' !! t) <-> In t written_GPS).

Definition is_object (v : json) : bool :=
  match v with JObj _ => true | _ => false end.

(** A [people] entry whose [name] is present and is not a string. *)
Definition has_bad_name (p : json) : bool :=
  match p with
  | JObj kv =>
      match dict_lookup "name" kv with
      | Some (JStr _) | None => false
      | Some _ => true
      end
  | _ => false
  end.

Definition is_string (v : json) : bool :=
  match v with JStr _ => true | _ => false end.

(** The keys the image writer reads from a sidecar. *)
Definition image_keys : list string :=
  ["photoTakenTime"; "title"; "Title"; "description"; "Description"; "people";
   "geoData"].

(** The keys the video writer reads from a sidecar. *)
Definition video_keys : list string :=
  ["dateTime"; "DateTime"; "description"; "Description"; "make"; "Make";
   "model"; "Model"; "gpsLatitude"; "gpsLongitude"].

(** ** Comparing filesystems and reading outcome lines *)



(** * Evaluation of the embedding on small inputs *)

Example to_degrees_paris :
  to_degrees (488584 # 10000) = ((48, 1), (51, 1), (3024, 100))%Z.
Proof. vm_compute. reflexivity. Qed.

Example find_json_file_ex :
  find_json_file {[ ["d"; "a.jpg.json"] := File "{}"; ["d"; "a.json"] := File "{}" ]}
                 ["d"; "a.jpg"] = Ok (Some ["d"; "a.jpg.json"]).
Proof. vm_compute. reflexivity. Qed.

Example find_media_files_ex :
  find_media_files {[ ["d"] := Dir; ["d"; "a.JPG"] := File "x";
                      ["d"; "a.txt"] := File "y"; ["e"; "b.mp4"] := File "z" ]}
                   ["d"] = [["d"; "a.JPG"]].
Proof. vm_compute. reflexivity. Qed.

Example loads_people :
  JsonRef.loads (JsonRef.text "{'people': [{'name':'Ann'},{'name':'Bo'}]}")
  = Ok (JObj [("people", JArr [JObj [("name", JStr "Ann")]; JObj [("name", JStr "Bo")]])]).
Proof. vm_compute. reflexivity. Qed.

Example loads_bad : JsonRef.loads "{bad" = Raise JSONDecodeError.
Proof. vm_compute. reflexivity. Qed.

Example loads_geo :
  JsonRef.loads
    (JsonRef.text "{'geoData': {'latitude': 48.8584, 'longitude': -2.5e0}, 'n': null}")
  = Ok (JObj [("geoData", JObj [("latitude", JNum (61073 # 1250));
                                ("longitude", JNum (-5 # 2))]); ("n", JNull)]).
Proof. vm_compute. reflexivity. Qed.

Example loads_list : JsonRef.loads " [] " = Ok (JArr []).
Proof. vm_compute. reflexivity. Qed.

(** One image with a sidecar and one video without: the image is written
    to the mirrored path, the video is skipped. *)
Example main_end_to_end :
  match Doubles.run Doubles.exiftool_ok Doubles.tree false with
  | Ok (Summary c, st', _) =>
      c = {| success_count := 1; skipped_count := 1; error_count := 0 |}
      /\ is_file st' ["photos-exif"; "a.jpg"] = true
      /\ exists_ st' ["photos-exif"; "b.mp4"] = false
  | _ => False
  end.
Proof. vm_compute. repeat split. Qed.

(** * Strings and paths *)

Lemma append_cons (a : ascii) (s t : string) : String a s ++ t = String a (s ++ t).
Proof. reflexivity. Qed.

Lemma append_nil_r (s : string) : s ++ "" = s.
Proof. induction s as [|a s IH]; [reflexivity|]. now rewrite append_cons, IH. Qed.

Lemma substring_0_length (s : string) : substring 0 (String.length s) s = s.
Proof. induction s as [|a s IH]; simpl; [reflexivity | now rewrite IH]. Qed.

Lemma substring_split (s : string) (i : nat) :
  (i <= String.length s)%nat ->
  substring 0 i s ++ substring i (String.length s - i) s = s.
Proof.
  revert i. induction s as [|a s IH]; intros i Hi.
  - destruct i; reflexivity.
  - destruct i as [|i]; simpl.
    + now rewrite substring_0_length.
    + simpl in Hi. rewrite append_cons, IH by lia. reflexivity.
Qed.

Lemma length_substring (s : string) (i k : nat) :
  (i + k <= String.length s)%nat -> String.length (substring i k s) = k.
Proof.
  revert i k. induction s as [|a s IH]; intros i k H; simpl in H.
  - assert (i = 0%nat) by lia. assert (k = 0%nat) by lia. subst. reflexivity.
  - destruct i as [|i]; simpl.
    + destruct k as [|k]; simpl; [reflexivity|]. f_equal. apply IH. lia.
    + apply IH. lia.
Qed.

Lemma rfind_lt (c : ascii) (s : string) (i : nat) :
  rfind c s = Some i -> (i < String.length s)%nat.
Proof.
  revert i. induction s as [|a s IH]; simpl; intros i H; [discriminate|].
  destruct (rfind c s) as [j|].
  - injection H as <-. specialize (IH j eq_refl). lia.
  - destruct (Ascii.eqb a c); [injection H as <-; lia | discriminate].
Qed.

(** A name is its stem followed by its suffix. *)
Lemma stem_suffix (n : string) : name_stem n ++ name_suffix n = n.
Proof.
  unfold name_stem. unfold name_suffix at 2. unfold name_suffix at 1.
  destruct (rfind "." n) as [i|] eqn:Hr.
  - apply rfind_lt in Hr.
    destruct ((0 <? i) && (i <? String.length n - 1))%nat.
    + rewrite length_substring by lia.
      replace (String.length n - (String.length n - i))%nat with i by lia.
      apply substring_split. lia.
    + simpl. rewrite Nat.sub_0_r, substring_0_length. apply append_nil_r.
  - simpl. rewrite Nat.sub_0_r, substring_0_length. apply append_nil_r.
Qed.

Lemma name_suffix_empty : name_suffix "" = "".
Proof. reflexivity. Qed.

Lemma append_assoc (a b c : string) : (a ++ b) ++ c = a ++ (b ++ c).
Proof. induction a as [|x a IH]; [reflexivity|]. now rewrite !append_cons, IH. Qed.

Lemma contains_char_app (c : ascii) (a b : string) :
  contains_char c (a ++ b) = contains_char c a || contains_char c b.
Proof.
  induction a as [|x a IH]; [reflexivity|].
  rewrite append_cons. simpl. rewrite IH. now rewrite orb_assoc.
Qed.

Lemma in_set_true (x : string) (l : list string) :
  in_set x l = true -> In x l.
Proof.
  unfold in_set. rewrite existsb_exists. intros (y & Hy & E).
  apply String.eqb_eq in E. now subst.
Qed.

Lemma lower_ascii_slash (a : ascii) :
  Ascii.eqb (lower_ascii a) "/" = Ascii.eqb a "/".
Proof. destruct a as [[] [] [] [] [] [] [] []]; reflexivity. Qed.

Lemma lower_ascii_dot (a : ascii) :
  Ascii.eqb (lower_ascii a) "." = Ascii.eqb a ".".
Proof. destruct a as [[] [] [] [] [] [] [] []]; reflexivity. Qed.

Lemma contains_slash_lower (s : string) :
  contains_char "/" (lower s) = contains_char "/" s.
Proof.
  induction s as [|a s IH]; simpl; [reflexivity|].
  now rewrite lower_ascii_slash, IH.
Qed.

Lemma startswith_dot_lower (s : string) :
  startswith_char "." (lower s) = startswith_char "." s.
Proof. destruct s as [|a s]; simpl; [reflexivity | apply lower_ascii_dot]. Qed.

(** What membership in the supported set tells about a suffix. *)
Lemma media_suffix_shape (sfx : string) :
  in_set (lower sfx) ALL_MEDIA_EXTENSIONS = true ->
  contains_char "/" sfx = false /\ startswith_char "." sfx = true.
Proof.
  intros H. apply in_set_true in H.
  rewrite <- contains_slash_lower, <- startswith_dot_lower.
  simpl in H.
  repeat (destruct H as [<- | H]; [split; reflexivity|]).
  destruct H.
Qed.

Lemma media_name_nonempty (m : Path) :
  in_set (lower (suffix m)) ALL_MEDIA_EXTENSIONS = true ->
  String.eqb (suffix m) "" = false /\ String.eqb (name m) "" = false.
Proof.
  intros H. apply media_suffix_shape in H as [_ H].
  unfold suffix in *. destruct (name m) as [|a n] eqn:E.
  - rewrite name_suffix_empty in H. discriminate.
  - split; [|reflexivity]. destruct (name_suffix (String a n)); [discriminate | reflexivity].
Qed.

(** A suffix is empty or a dot followed by at least one character. *)
Lemma name_suffix_length (n : string) :
  name_suffix n = "" \/ (2 <= String.length (name_suffix n))%nat.
Proof.
  unfold name_suffix. destruct (rfind "." n) as [i|] eqn:Hr; [|now left].
  destruct ((0 <? i) && (i <? String.length n - 1))%nat eqn:Hb; [|now left].
  right. apply andb_true_iff in Hb as [_ Hb]. apply Nat.ltb_lt in Hb.
  apply rfind_lt in Hr. rewrite length_substring by lia. lia.
Qed.

Lemma length_append (a b : string) :
  String.length (a ++ b) = (String.length a + String.length b)%nat.
Proof. induction a as [|x a IH]; [reflexivity|]. rewrite append_cons. simpl. now rewrite IH. Qed.

(** Appending to the full name: [with_suffix(suffix + ext)]. *)
Lemma with_suffix_append (m : Path) (ext : string) :
  in_set (lower (suffix m)) ALL_MEDIA_EXTENSIONS = true ->
  contains_char "/" ext = false ->
  with_suffix m (suffix m ++ ext) = Ok (parent m ++ [name m +:+ ext])%list.
Proof.
  intros H Hext.
  destruct (media_name_nonempty m H) as [Hs Hn].
  destruct (media_suffix_shape _ H) as [Hslash Hdot].
  assert (Hlen : (2 <= String.length (suffix m))%nat).
  { destruct (name_suffix_length (name m)) as [E|E]; [|exact E].
    unfold suffix in Hs. rewrite E in Hs. discriminate. }
  assert (A1 : String.eqb (suffix m ++ ext) "" = false).
  { apply String.eqb_neq. intros E. apply (f_equal String.length) in E.
    rewrite length_append in E. simpl in E. lia. }
  assert (A2 : startswith_char "." (suffix m ++ ext) = true).
  { destruct (suffix m); [discriminate | exact Hdot]. }
  assert (A3 : String.eqb (suffix m ++ ext) "." = false).
  { apply String.eqb_neq. intros E. apply (f_equal String.length) in E.
    rewrite length_append in E. simpl in E. lia. }
  unfold with_suffix.
  rewrite contains_char_app, Hslash, Hext, A1, A2, A3, Hn, Hs. simpl.
  do 3 f_equal. rewrite <- append_assoc. f_equal. apply stem_suffix.
Qed.

(** Replacing the suffix: [with_suffix('.json')]. *)
Lemma with_suffix_replace (m : Path) :
  in_set (lower (suffix m)) ALL_MEDIA_EXTENSIONS = true ->
  with_suffix m ".json" = Ok (parent m ++ [stem m +:+ ".json"])%list.
Proof.
  intros H. destruct (media_name_nonempty m H) as [Hs Hn].
  unfold with_suffix. simpl. rewrite Hn, Hs. reflexivity.
Qed.

(** * The sidecar resolver *)

Lemma find_json_file_unfold (st : fs) (m : Path) :
  in_set (lower (suffix m)) ALL_MEDIA_EXTENSIONS = true ->
  find_json_file st m = Ok (List.find (exists_ st) (sidecar_candidates m)).
Proof.
  intros H. unfold find_json_file.
  rewrite !(with_suffix_append m _ H) by reflexivity.
  rewrite (with_suffix_replace m H).
  unfold sidecar_candidates. simpl.
  repeat match goal with
         | |- context [exists_ st ?p] => destruct (exists_ st p); [reflexivity|]
         end.
  reflexivity.
Qed.



(** * Discovery *)

Lemma relative_to_prefix (p base : Path) :
  take (length base) p = base -> relative_to p base = Ok (drop (length base) p).
Proof.
  revert p. induction base as [|b base IH]; intros p H; simpl.
  - reflexivity.
  - destruct p as [|c p]; simpl in H; [discriminate|].
    injection H as -> H. rewrite String.eqb_refl. now apply IH.
Qed.

Lemma find_media_files_discovered (st : fs) (folder m : Path) :
  In m (find_media_files st folder) -> discovered folder m.
Proof.
  unfold find_media_files. rewrite filter_In. intros [_ H].
  apply andb_true_iff in H as [Hw Hm]. split; [|exact Hm].
  unfold walked in Hw. rewrite !andb_true_iff in Hw.
  destruct Hw as [[[_ Hp] _] _]. now apply bool_decide_eq_true in Hp.
Qed.

(** * The batch *)

Section Pipeline.

Variable json_loads : string -> result json.
Variable int_of_str : string -> result Z.
Variable strftime_local : json -> result string.
Variable py_repr : json -> string.
Variable piexif_load : string -> result exif.
Variable piexif_dump : exif -> result string.
Variable image_save : string -> string -> string -> result string.
Variable exiftool_ver : completed.
Variable exiftool : list string -> fs -> result (Z * string * fs).

Local Abbreviation process :=
  (process_media_file json_loads int_of_str strftime_local py_repr piexif_load
     piexif_dump image_save exiftool_ver exiftool).
Local Abbreviation step :=
  (main_step json_loads int_of_str strftime_local py_repr piexif_load
     piexif_dump image_save exiftool_ver exiftool).
Local Abbreviation loop :=
  (main_loop json_loads int_of_str strftime_local py_repr piexif_load
     piexif_dump image_save exiftool_ver exiftool).
Local Abbreviation run :=
  (main json_loads int_of_str strftime_local py_repr piexif_load
     piexif_dump image_save exiftool_ver exiftool).






(** ** What the writers print *)

Ltac case_results :=
  repeat match goal with
         | |- context [match ?x with Ok _ => _ | Raise _ => _ end] => destruct x
         | |- context [let '(_, _) := ?x in _] => destruct x
         | |- context [if ?b then _ else _] => destruct b
         end.

Lemma update_image_exif_quiet (st : fs) (image_file output_file : Path) (metadata : json) :
  quiet (snd (update_image_exif int_of_str strftime_local piexif_load piexif_dump
                image_save st image_file output_file metadata)).
Proof. unfold update_image_exif. case_results; repeat split. Qed.

Lemma update_video_exif_quiet (st : fs) (video_file output_file : Path) (metadata : json) :
  quiet (snd (update_video_exif py_repr exiftool_ver exiftool
                st video_file output_file metadata)).
Proof. unfold update_video_exif. case_results; repeat split. Qed.

Lemma load_json_metadata_some (st : fs) (j : Path) (metadata : json) (out : list event) :
  load_json_metadata json_loads st j = (Some metadata, out) -> out = [].
Proof.
  unfold load_json_metadata.
  destruct (text <-! read_file st j; json_loads text) as [[]|]; congruence.
Qed.

Lemma load_json_metadata_none (st : fs) (j : Path) (out : list event) :
  load_json_metadata json_loads st j = (None, out) ->
  out = [] \/ out = [ErrorLoading j].
Proof.
  unfold load_json_metadata.
  destruct (text <-! read_file st j; json_loads text) as [[]|]; intros [= <-]; auto.
Qed.

(** ** The two extension sets *)


Lemma media_image_or_video (m : Path) :
  in_set (lower (suffix m)) ALL_MEDIA_EXTENSIONS = true ->
  is_image m = negb (is_video m).
Proof.
  unfold is_video, is_image. intros H. apply in_set_true in H. simpl in H.
  repeat (destruct H as [<- | H]; [reflexivity|]). destruct H.
Qed.

(** ** Dry runs *)




(** ** The video writer without exiftool *)


(** ** Dispatch *)

(** C10. A file that discovery yields is an image or a video and not both.
    [process_media_file] on it never reaches the final fall-through for
    unsupported types, and a live run that has decoded the sidecar calls
    exactly one writer: the image writer for an image, the video writer
    for a video. *)
Theorem discovered_file_has_one_writer (st : fs) (folder m : Path) :
  In m (find_media_files st folder) ->
  is_image m = negb (is_video m)
  /\ forall s output_folder dry_run,
       exists success s' out,
         process s m folder output_folder dry_run = Ok (success, s', out)
         /\ existsb is_unsupported out = false
         /\ (dry_run = false ->
             forall j metadata o,
               find_json_file s m = Ok (Some j) ->
               load_json_metadata json_loads s j = (Some metadata, o) ->
               writer_calls out = 1%nat
               /\ In (if is_image m then CallImageWriter m else CallVideoWriter m) out).
Proof.
  intros Hin. apply find_media_files_discovered in Hin as [Hp Hm].
  split; [now apply media_image_or_video|].
  intros s output_folder dry_run. unfold process_media_file.
  rewrite (find_json_file_unfold s m Hm). cbn [rbind].
  destruct (List.find (exists_ s) (sidecar_candidates m)) as [j|].
  2:{ eexists _, _, _. split; [reflexivity|]. split; [reflexivity|].
      intros _ ? ? ? [=]. }
  destruct (load_json_metadata json_loads s j) as [[metadata|] o] eqn:El.
  2:{ eexists _, _, _. split; [reflexivity|]. split.
      - destruct (load_json_metadata_none _ _ _ El) as [-> | ->]; reflexivity.
      - intros _ ? ? ? [= <-]. rewrite El. intros [=]. }
  apply load_json_metadata_some in El as Ho. subst o.
  rewrite (relative_to_prefix _ _ Hp). cbn [rbind].
  destruct dry_run.
  { eexists _, _, _. split; [reflexivity|]. split; [reflexivity|]. discriminate. }
  rewrite (media_image_or_video m Hm).
  destruct (is_video m); cbn [negb].
  - pose proof (update_video_exif_quiet s m (output_folder ++ drop (length folder) m)
                  metadata) as (_ & Q2 & Q3 & _).
    destruct (update_video_exif _ _ _ _ _ _ _) as [[sl stl] ol]. simpl in Q2, Q3.
    eexists _, _, _. split; [reflexivity|]. split.
    + simpl. rewrite existsb_app, Q3. now destruct sl.
    + intros _ ? ? ? _ _. split; [|now left].
      unfold writer_calls. simpl. rewrite List.filter_app, Q2. now destruct sl.
  - pose proof (update_image_exif_quiet s m (output_folder ++ drop (length folder) m)
                  metadata) as (_ & Q2 & Q3 & _).
    destruct (update_image_exif _ _ _ _ _ _ _ _ _) as [[sl stl] ol]. simpl in Q2, Q3.
    eexists _, _, _. split; [reflexivity|]. split.
    + simpl. rewrite existsb_app, Q3. now destruct sl.
    + intros _ ? ? ? _ _. split; [|now left].
      unfold writer_calls. simpl. rewrite List.filter_app, Q2. now destruct sl.
Qed.

End Pipeline.

(** * The coordinate conversion *)

Lemma py_int_floor (x : Q) : (0 <= x)%Q -> py_int x = Qfloor x.
Proof.
  destruct x as [n d]. unfold Qle, py_int, Qfloor. simpl. intros H.
  apply Z.quot_div_nonneg; lia.
Qed.

Lemma Qfloor_unique (x : Q) (n : Z) :
  (inject_Z n <= x)%Q -> (x < inject_Z (n + 1))%Q -> Qfloor x = n.
Proof.
  intros H1 H2. pose proof (Qfloor_le x) as F1. pose proof (Qlt_floor x) as F2.
  assert (A : (Qfloor x < n + 1)%Z) by (rewrite Zlt_Qlt; lra).
  assert (B : (n < Qfloor x + 1)%Z) by (rewrite Zlt_Qlt; lra).
  lia.
Qed.

Lemma Qfloor_bounds (x : Q) (lo hi : Z) :
  (inject_Z lo <= x)%Q -> (x < inject_Z hi)%Q -> (lo <= Qfloor x < hi)%Z.
Proof.
  intros H1 H2. pose proof (Qfloor_le x) as F1. pose proof (Qlt_floor x) as F2.
  split.
  - assert (A : (lo < Qfloor x + 1)%Z) by (rewrite Zlt_Qlt; lra). lia.
  - rewrite Zlt_Qlt. lra.
Qed.

Ltac qconst :=
  change (inject_Z 0) with 0%Q in *; change (inject_Z 1) with 1%Q in *;
  change (inject_Z 60) with 60%Q in *; change (inject_Z 6000) with 6000%Q in *;
  change (inject_Z 360000) with 360000%Q in *.

(** The conversion in exact arithmetic: every part is an integer part, and
    the three parts together are [|v|] cut to a whole number of hundredths
    of a second. *)
Lemma to_degrees_exact (v : Q) :
  let a := Qabs v in
  let d := Qfloor a in
  let m := Qfloor ((a - inject_Z d) * 60)%Q in
  let s := ((a - inject_Z d - inject_Z m / 60) * 3600)%Q in
  to_degrees v = ((d, 1), (m, 1), (Qfloor (s * 100)%Q, 100))%Z
  /\ (0 <= d)%Z /\ (0 <= m <= 59)%Z /\ (0 <= Qfloor (s * 100)%Q <= 5999)%Z
  /\ (d * 360000 + m * 6000 + Qfloor (s * 100)%Q = Qfloor (a * 360000)%Q)%Z.
Proof.
  intros a d m s.
  pose proof (Qabs_nonneg v) as Ha. fold a in Ha.
  pose proof (Qfloor_le a) as D1. pose proof (Qlt_floor a) as D2. fold d in D1, D2.
  rewrite inject_Z_plus in D2. qconst.
  assert (Hm : (0 <= m < 60)%Z).
  { apply Qfloor_bounds; qconst; lra. }
  pose proof (Qfloor_le ((a - inject_Z d) * 60)%Q) as M1.
  pose proof (Qlt_floor ((a - inject_Z d) * 60)%Q) as M2. fold m in M1, M2.
  rewrite inject_Z_plus in M2. qconst.
  assert (E : (s * 100 == a * 360000 - inject_Z d * 360000 - inject_Z m * 6000)%Q)
    by (unfold s; field).
  assert (Hs : (0 <= s * 100)%Q /\ (s * 100 < 6000)%Q) by (split; lra).
  assert (Hn : (0 <= Qfloor (s * 100)%Q < 6000)%Z).
  { apply Qfloor_bounds; qconst; lra. }
  assert (Hd : (0 <= d)%Z).
  { assert (A : (0 < d + 1)%Z) by (rewrite Zlt_Qlt, inject_Z_plus; qconst; lra). lia. }
  split; [|split; [exact Hd|split; [lia|split; [lia|]]]].
  - unfold to_degrees. fold a.
    rewrite (py_int_floor a Ha). fold d.
    rewrite (py_int_floor ((a - inject_Z d) * 60)%Q) by lra. fold m. fold s.
    rewrite (py_int_floor (s * 100)%Q) by lra. reflexivity.
  - pose proof (Qfloor_le (s * 100)%Q) as N1.
    pose proof (Qlt_floor (s * 100)%Q) as N2. rewrite inject_Z_plus in N2.
    symmetry. apply Qfloor_unique;
      rewrite !inject_Z_plus, !inject_Z_mult; qconst; lra.
Qed.



(** * People *)

Lemma py_join_strings (sep : string) (l : list string) :
  py_join sep (map JStr l) = Ok (String.concat sep l).
Proof.
  induction l as [|s l IH]; [reflexivity|].
  cbn [map py_join]. destruct l as [|s' l]; [reflexivity|].
  cbn [map] in IH |- *. rewrite IH. reflexivity.
Qed.

Lemma people_names_present (people : list json) :
  forallb is_person people = true ->
  people_names people = Ok (map JStr (omap entry_name people)).
Proof.
  induction people as [|p people IH]; [reflexivity|].
  cbn [forallb]. intros H. apply andb_true_iff in H as [Hp H].
  specialize (IH H). cbn [people_names].
  destruct p as [| | | | |kv]; try discriminate.
  unfold py_contains, py_get, is_person, entry_name in *. cbn [rbind].
  unfold omap, list_omap; fold (@list_omap json string entry_name).
  destruct (dict_lookup "name" kv) as [[| | |s| |]|]; try discriminate; cbn [rbind].
  - fold (omap entry_name people). rewrite IH. reflexivity.
  - fold (omap entry_name people). exact IH.
Qed.

(** C4, as written: entries with an empty name are excluded.  With an
    empty name between Ann and Bo the script embeds "Ann, , Bo". *)
Lemma empty_name_is_embedded :
  embedded_tag exif_set_people ImageIFD.XPComment
    "{'people': [{'name':'Ann'},{'name':''},{'name':'Bo'}]}"
  = Ok (Some (Encoded Utf16le "Ann, , Bo"))
  /\ people_str_spec [JObj [("name", JStr "Ann")]; JObj [("name", JStr "")];
                      JObj [("name", JStr "Bo")]] = "Ann, Bo".
Proof. split; vm_compute; reflexivity. Qed.

(** C4, amended.  For a [people] list whose entries are objects with string
    names, the embedded value is the comma-and-space join of the [name]
    values of exactly the entries that have a [name] key, in list order, an
    empty name included; entries without a name are left out.
    [{"people": [{"name":"Ann"},{"name":"Bo"}]}] gives "Ann, Bo". *)
Theorem people_with_a_name_are_joined (people : list json) :
  forallb is_person people = true ->
  people_str people = Ok (String.concat ", " (omap entry_name people))
  /\ (forall kv e,
        dict_lookup "people" kv = Some (JArr people) ->
        exif_set_people (JObj kv) e
        = Ok (set_0th ImageIFD.XPComment
                (Encoded Utf16le (String.concat ", " (omap entry_name people))) e))
  /\ embedded_tag exif_set_people ImageIFD.XPComment
       "{'people': [{'name':'Ann'},{'name':'Bo'}]}"
     = Ok (Some (Encoded Utf16le "Ann, Bo")).
Proof.
  intros H.
  assert (E : people_str people = Ok (String.concat ", " (omap entry_name people))).
  { unfold people_str. rewrite (people_names_present people H). cbn [rbind].
    apply py_join_strings. }
  split; [exact E|]. split.
  - intros kv e Hk. unfold exif_set_people, py_contains, py_getitem.
    rewrite Hk. cbn [rbind]. rewrite E. reflexivity.
  - vm_compute. reflexivity.
Qed.

Lemma people_with_a_name_are_joined_witness :
  forallb is_person [JObj [("name", JStr "Ann")]; JObj [("age", JNum 3)];
                     JObj [("name", JStr "")]] = true
  /\ people_str [JObj [("name", JStr "Ann")]; JObj [("age", JNum 3)];
                 JObj [("name", JStr "")]] = Ok "Ann, ".
Proof.
  split; [reflexivity|].
  exact (proj1 (people_with_a_name_are_joined
                  [JObj [("name", JStr "Ann")]; JObj [("age", JNum 3)];
                   JObj [("name", JStr "")]] eq_refl)).
Defined.

(** * Titles and descriptions *)

Lemma get_or_both (kv : list (string * json)) (k1 k2 : string) (a b : json) :
  dict_lookup k1 kv = Some a -> dict_lookup k2 kv = Some b ->
  get_or (JObj kv) k1 k2 = Ok (if truthy a then a else b).
Proof.
  intros H1 H2. unfold get_or, py_get. rewrite H1, H2. cbn [rbind].
  now destruct (truthy a).
Qed.

Lemma get_or_first (kv : list (string * json)) (k1 k2 : string) (v : json) :
  dict_lookup k1 kv = Some v -> truthy v = true -> get_or (JObj kv) k1 k2 = Ok v.
Proof.
  intros H1 Hv. unfold get_or, py_get. rewrite H1. cbn [rbind]. now rewrite Hv.
Qed.

Lemma get_or_second (kv : list (string * json)) (k1 k2 : string) (v : json) :
  dict_lookup k1 kv = None -> dict_lookup k2 kv = Some v ->
  get_or (JObj kv) k1 k2 = Ok v.
Proof. intros H1 H2. unfold get_or, py_get. now rewrite H1, H2. Qed.

Lemma contains_or_either (kv : list (string * json)) (k1 k2 : string) (v : json) :
  dict_lookup k1 kv = Some v \/ dict_lookup k2 kv = Some v ->
  contains_or (JObj kv) k1 k2 = Ok true.
Proof.
  unfold contains_or, py_contains. cbn [rbind]. intros [H|H]; rewrite H.
  - reflexivity.
  - now destruct (dict_lookup k1 kv).
Qed.

(** C6, as written: with both keys the value of [title] wins whatever the
    values are, and a sidecar with only [Title] decodes as one with only
    [title].  An empty [title] loses to [Title], and an empty value is
    written from [Title] but not from [title]. *)
Lemma empty_title_does_not_win :
  get_or (JObj [("title", JStr ""); ("Title", JStr "B")]) "title" "Title" = Ok (JStr "B")
  /\ first_present [("title", JStr ""); ("Title", JStr "B")] "title" "Title" = JStr ""
  /\ embedded_tag exif_set_title ImageIFD.XPTitle "{'title': '', 'Title': 'B'}"
     = Ok (Some (Encoded Utf16le "B"))
  /\ embedded_tag exif_set_title ImageIFD.XPTitle "{'title': ''}" = Ok None
  /\ embedded_tag exif_set_title ImageIFD.XPTitle "{'Title': ''}"
     = Ok (Some (Encoded Utf16le "")).
Proof. repeat split; vm_compute; reflexivity. Qed.

(** C6, amended.  For a sidecar object with both [title] and [Title], the
    decoded title is the value of [title] when that value is truthy (not
    null, false, zero or empty) and the value of [Title] otherwise; the same
    rule governs [description]/[Description].  A sidecar with only [Title]
    and one with only [title] decode identically when the value is truthy;
    [{"Title": "A"}] and [{"title": "A"}] both store "A". *)
Theorem first_truthy_value_wins (kv : list (string * json)) (e : exif) :
  (forall t T,
     dict_lookup "title" kv = Some t -> dict_lookup "Title" kv = Some T ->
     (truthy t = true -> get_or (JObj kv) "title" "Title" = Ok t)
     /\ (truthy t = false -> get_or (JObj kv) "title" "Title" = Ok T)
     /\ (forall s, (if truthy t then t else T) = JStr s ->
           exif_set_title (JObj kv) e
           = Ok (set_0th ImageIFD.XPTitle (Encoded Utf16le s) e)))
  /\ (forall d D,
        dict_lookup "description" kv = Some d -> dict_lookup "Description" kv = Some D ->
        (truthy d = true -> get_or (JObj kv) "description" "Description" = Ok d)
        /\ (truthy d = false -> get_or (JObj kv) "description" "Description" = Ok D)
        /\ (forall s, (if truthy d then d else D) = JStr s ->
              exif_set_description (JObj kv) e
              = Ok (set_0th ImageIFD.ImageDescription (Encoded Utf8 s) e)))
  /\ (forall v kv',
        truthy v = true ->
        dict_lookup "title" kv = None -> dict_lookup "Title" kv = Some v ->
        dict_lookup "title" kv' = Some v ->
        get_or (JObj kv) "title" "Title" = Ok v
        /\ get_or (JObj kv') "title" "Title" = Ok v
        /\ exif_set_title (JObj kv) e = exif_set_title (JObj kv') e)
  /\ (forall v kv',
        truthy v = true ->
        dict_lookup "description" kv = None -> dict_lookup "Description" kv = Some v ->
        dict_lookup "description" kv' = Some v ->
        get_or (JObj kv) "description" "Description" = Ok v
        /\ get_or (JObj kv') "description" "Description" = Ok v
        /\ exif_set_description (JObj kv) e = exif_set_description (JObj kv') e)
  /\ embedded_tag exif_set_title ImageIFD.XPTitle "{'Title': 'A'}"
     = embedded_tag exif_set_title ImageIFD.XPTitle "{'title': 'A'}"
  /\ embedded_tag exif_set_title ImageIFD.XPTitle "{'title': 'A'}"
     = Ok (Some (Encoded Utf16le "A")).
Proof.
  split; [|split; [|split; [|split; [|split; vm_compute; reflexivity]]]].
  - intros t T H1 H2. pose proof (get_or_both kv _ _ _ _ H1 H2) as G.
    split; [|split].
    + intros Ht. now rewrite Ht in G.
    + intros Ht. now rewrite Ht in G.
    + intros s Hs. unfold exif_set_title.
      rewrite (contains_or_either kv _ _ t (or_introl H1)). cbn [rbind].
      rewrite G, Hs. reflexivity.
  - intros d D H1 H2. pose proof (get_or_both kv _ _ _ _ H1 H2) as G.
    split; [|split].
    + intros Ht. now rewrite Ht in G.
    + intros Ht. now rewrite Ht in G.
    + intros s Hs. unfold exif_set_description.
      rewrite (contains_or_either kv _ _ d (or_introl H1)). cbn [rbind].
      rewrite G, Hs. reflexivity.
  - intros v kv' Hv H1 H2 H3.
    pose proof (get_or_second kv _ _ _ H1 H2) as G.
    pose proof (get_or_first kv' _ "Title" _ H3 Hv) as G'.
    split; [exact G|]. split; [exact G'|].
    unfold exif_set_title.
    rewrite (contains_or_either kv _ _ v (or_intror H2)).
    rewrite (contains_or_either kv' _ "Title" v (or_introl H3)). cbn [rbind].
    now rewrite G, G'.
  - intros v kv' Hv H1 H2 H3.
    pose proof (get_or_second kv _ _ _ H1 H2) as G.
    pose proof (get_or_first kv' _ "Description" _ H3 Hv) as G'.
    split; [exact G|]. split; [exact G'|].
    unfold exif_set_description.
    rewrite (contains_or_either kv _ _ v (or_intror H2)).
    rewrite (contains_or_either kv' _ "Description" v (or_introl H3)). cbn [rbind].
    now rewrite G, G'.
Qed.

(** * Where the script departs from its own contract *)

(** C1.  A video with a sidecar, exiftool installed, and an exiftool run
    that exits with status 1 without touching the file: the file is
    counted as an error, and the copy made before the tool ran is still at
    the mirrored output path, which did not exist before the run. *)
Theorem failed_video_leaves_its_copy :
  match Doubles.run Doubles.exiftool_fails Doubles.video_tree false with
  | Ok (Summary c, st', out) =>
      c = {| success_count := 0; skipped_count := 0; error_count := 1 |}
      /\ st' !! ["photos-exif"; "clip.mp4"] = Some (File "MP4")
      /\ Doubles.video_tree !! ["photos-exif"; "clip.mp4"] = None
      /\ out = [CallVideoWriter ["photos"; "clip.mp4"];
                ExiftoolError ["photos"; "clip.mp4"] "Error: File format error"]
  | _ => False
  end.
Proof. vm_compute. repeat split. Qed.

(** C2.  A sidecar whose text is the JSON list [[]]: [load_json_metadata]
    returns the list, no decoding error is reported, and the image is
    counted as updated, in a live run (which writes the output file) and in
    a dry run. *)
Theorem top_level_list_is_accepted :
  load_json_metadata JsonRef.loads Doubles.list_tree ["photos"; "a.jpg.json"]
  = (Some (JArr []), [])
  /\ match Doubles.run Doubles.exiftool_ok Doubles.list_tree false with
     | Ok (Summary c, st', out) =>
         c = {| success_count := 1; skipped_count := 0; error_count := 0 |}
         /\ is_file st' ["photos-exif"; "a.jpg"] = true
         /\ existsb is_error_loading out = false
     | _ => False
     end
  /\ match Doubles.run Doubles.exiftool_ok Doubles.list_tree true with
     | Ok (Summary c, st', out) =>
         c = {| success_count := 1; skipped_count := 0; error_count := 0 |}
         /\ existsb is_error_loading out = false
     | _ => False
     end.
Proof. vm_compute. repeat split. Qed.

(** * The theorems at concrete inputs

    Each lemma below applies one of the theorems above to the trees and
    stand-ins of [Doubles]. *)


Lemma first_truthy_value_wins_witness :
  get_or (JObj [("title", JStr ""); ("Title", JStr "B")]) "title" "Title"
  = Ok (JStr "B").
Proof.
  exact (proj1 (proj2 (proj1 (first_truthy_value_wins
                                [("title", JStr ""); ("Title", JStr "B")] empty_exif)
                         (JStr "") (JStr "B") eq_refl eq_refl)) eq_refl).
Defined.




Lemma discovered_file_has_one_writer_witness :
  In ["photos"; "a.jpg"] (find_media_files Doubles.tree ["photos"])
  /\ is_image ["photos"; "a.jpg"] = negb (is_video ["photos"; "a.jpg"]).
Proof.
  assert (H : In ["photos"; "a.jpg"] (find_media_files Doubles.tree ["photos"])).
  { vm_compute. auto. }
  split; [exact H|].
  exact (proj1 (discovered_file_has_one_writer
                  JsonRef.loads Doubles.int_of_str Doubles.strftime_local
                  Doubles.py_repr Doubles.piexif_load Doubles.piexif_dump
                  Doubles.image_save (Exited 0) Doubles.exiftool_ok
                  Doubles.tree ["photos"] ["photos"; "a.jpg"] H)).
Defined.

(** * Further properties of the script *)

(** ** Sidecars are JSON siblings of their media file *)

Lemma rfind_app (c : ascii) (a b : string) (j : nat) :
  rfind c b = Some j -> rfind c (a ++ b) = Some (String.length a + j)%nat.
Proof.
  intros H. induction a as [|x a IH]; [exact H|].
  rewrite append_cons. simpl. now rewrite IH.
Qed.

Lemma substring_app_r (a b : string) :
  substring (String.length a) (String.length b) (a ++ b) = b.
Proof.
  induction a as [|x a IH]; [apply substring_0_length|].
  rewrite append_cons. simpl. exact IH.
Qed.

Lemma name_suffix_json (x : string) :
  x <> "" -> name_suffix (x ++ ".json") = ".json".
Proof.
  intros Hx. unfold name_suffix.
  rewrite (rfind_app "." x ".json" 0 eq_refl), Nat.add_0_r, length_append.
  assert (Hl : (0 < String.length x)%nat) by (destruct x; [congruence | simpl; lia]).
  replace ((0 <? String.length x) && (String.length x <? String.length x + String.length ".json" - 1))%nat
    with true.
  - replace (String.length x + String.length ".json" - String.length x)%nat
      with (String.length ".json") by lia.
    apply substring_app_r.
  - symmetry. apply andb_true_iff. split; apply Nat.ltb_lt; simpl; lia.
Qed.

Lemma name_stem_nonempty (n : string) : name_suffix n <> "" -> name_stem n <> "".
Proof.
  unfold name_stem. unfold name_suffix.
  destruct (rfind "." n) as [i|] eqn:Hr; [|congruence].
  destruct ((0 <? i) && (i <? String.length n - 1))%nat eqn:Hb; [|congruence].
  intros _. apply andb_true_iff in Hb as [H0 H1].
  apply Nat.ltb_lt in H0, H1. apply rfind_lt in Hr.
  rewrite length_substring by lia.
  intros E. apply (f_equal String.length) in E.
  rewrite length_substring in E by lia. simpl in E. lia.
Qed.

Lemma name_snoc (p : Path) (n : string) : name (p ++ [n])%list = n.
Proof. unfold name. apply last_last. Qed.

Lemma parent_snoc (p : Path) (n : string) : parent (p ++ [n])%list = p.
Proof. unfold parent. apply removelast_last. Qed.

Lemma append_nonempty_l (a b : string) : a <> "" -> a ++ b <> "".
Proof. destruct a; [congruence|]. rewrite append_cons. discriminate. Qed.

(** Every candidate is in the media file's directory and ends in [.json]. *)
Lemma sidecar_candidates_shape (m c : Path) :
  in_set (lower (suffix m)) ALL_MEDIA_EXTENSIONS = true ->
  In c (sidecar_candidates m) ->
  parent c = parent m /\ suffix c = ".json".
Proof.
  intros Hm Hc.
  destruct (media_name_nonempty m Hm) as [Hs Hn].
  apply String.eqb_neq in Hs, Hn.
  assert (Hstem : stem m <> "") by (apply name_stem_nonempty; exact Hs).
  unfold sidecar_candidates in Hc. simpl in Hc.
  destruct Hc as [<-|[<-|[<-|[<-|[]]]]]; unfold suffix; rewrite name_snoc, parent_snoc;
    (split; [reflexivity|]).
  - change (name m +:+ ".suppl.json") with (name m ++ (".suppl" ++ ".json")).
    rewrite <- append_assoc. apply name_suffix_json. now apply append_nonempty_l.
  - change (name m +:+ ".supplemental-metadata.json")
      with (name m ++ (".supplemental-metadata" ++ ".json")).
    rewrite <- append_assoc. apply name_suffix_json. now apply append_nonempty_l.
  - now apply name_suffix_json.
  - now apply name_suffix_json.
Qed.

(** X1. The sidecar [find_json_file] returns for a media file exists, lies
    in the media file's own directory, has the suffix [.json], is not the
    media file, and is not itself a media file: discovery never yields
    it. *)
Theorem sidecar_is_a_json_sibling (st : fs) (m j folder : Path) :
  in_set (lower (suffix m)) ALL_MEDIA_EXTENSIONS = true ->
  find_json_file st m = Ok (Some j) ->
  exists_ st j = true
  /\ parent j = parent m
  /\ suffix j = ".json"
  /\ j <> m
  /\ ~ In j (find_media_files st folder).
Proof.
  intros Hm Hj. rewrite (find_json_file_unfold st m Hm) in Hj.
  assert (Hf : List.find (exists_ st) (sidecar_candidates m) = Some j) by congruence.
  apply find_some in Hf as [Hin Hex].
  destruct (sidecar_candidates_shape m j Hm Hin) as [Hp Hs].
  assert (Hnot : in_set (lower (suffix j)) ALL_MEDIA_EXTENSIONS = false)
    by (rewrite Hs; reflexivity).
  repeat split; try assumption.
  - intros ->. congruence.
  - intros Hd. apply find_media_files_discovered in Hd as [_ Hd]. congruence.
Qed.

Lemma sidecar_is_a_json_sibling_witness :
  in_set (lower (suffix ["photos"; "a.jpg"])) ALL_MEDIA_EXTENSIONS = true
  /\ find_json_file Doubles.tree ["photos"; "a.jpg"] = Ok (Some ["photos"; "a.jpg.json"])
  /\ suffix ["photos"; "a.jpg.json"] = ".json".
Proof.
  assert (H : find_json_file Doubles.tree ["photos"; "a.jpg"]
              = Ok (Some ["photos"; "a.jpg.json"])) by (vm_compute; reflexivity).
  split; [reflexivity|]. split; [exact H|].
  exact (proj1 (proj2 (proj2 (sidecar_is_a_json_sibling Doubles.tree ["photos"; "a.jpg"]
                                ["photos"; "a.jpg.json"] ["photos"] eq_refl H)))).
Defined.

(** ** What discovery lists *)

Lemma in_keys (st : fs) (p : Path) :
  In p (map fst (map_to_list st)) <-> is_Some (st !! p).
Proof.
  rewrite in_map_iff. split.
  - intros ([q n] & <- & H). apply list_elem_of_In, elem_of_map_to_list in H.
    simpl. eauto.
  - intros [n H]. exists (p, n). split; [reflexivity|].
    now apply list_elem_of_In, elem_of_map_to_list.
Qed.

Lemma keys_NoDup (st : fs) : List.NoDup (map fst (map_to_list st)).
Proof.
  pose proof (NoDup_fst_map_to_list st) as H. apply NoDup_ListNoDup in H.
  replace (map fst (map_to_list st)) with ((map_to_list st).*1); [exact H|].
  generalize (map_to_list st). intros l.
  induction l as [|x l IH]; [reflexivity|]. cbn. now f_equal.
Qed.

Lemma walked_folder_is_dir (st : fs) (folder m : Path) :
  walked st folder m = true -> is_dir st folder = true.
Proof.
  unfold walked, walk_dirs. rewrite !andb_true_iff.
  intros [[[Hl Hp] Hd] _].
  apply Nat.ltb_lt in Hl. apply bool_decide_eq_true in Hp.
  destruct (length m - length folder)%nat as [|k] eqn:E; [lia|].
  simpl in Hd. rewrite Hp in Hd. now apply andb_true_iff in Hd as [Hd _].
Qed.

(** X2. [find_media_files] lists every path at most once; what it lists is
    a file (never a directory), lies strictly below [folder] and has a
    supported suffix, whatever its letter case.  It lists every such file
    that is directly in [folder], and nothing at all when [folder] is not
    a directory. *)
Theorem discovery_lists_media_files (st : fs) (folder : Path) :
  List.NoDup (find_media_files st folder)
  /\ (forall m, In m (find_media_files st folder) ->
        is_file st m = true
        /\ (length folder < length m)%nat
        /\ take (length folder) m = folder
        /\ in_set (lower (suffix m)) ALL_MEDIA_EXTENSIONS = true)
  /\ (forall n content,
        is_dir st folder = true ->
        st !! (folder ++ [n])%list = Some (File content) ->
        in_set (lower (name_suffix n)) ALL_MEDIA_EXTENSIONS = true ->
        In (folder ++ [n])%list (find_media_files st folder))
  /\ (is_dir st folder = false -> find_media_files st folder = []).
Proof.
  split; [|split; [|split]].
  - unfold find_media_files. apply List.NoDup_filter, keys_NoDup.
  - intros m Hm. unfold find_media_files in Hm. apply filter_In in Hm as [_ H].
    apply andb_true_iff in H as [Hw Hs]. unfold walked in Hw.
    rewrite !andb_true_iff in Hw. destruct Hw as [[[Hl Hp] _] Hf].
    apply Nat.ltb_lt in Hl. apply bool_decide_eq_true in Hp. auto.
  - intros n content Hd Hf Hs. unfold find_media_files. apply filter_In. split.
    + apply in_keys. eauto.
    + apply andb_true_iff. split.
      * unfold walked, walk_dirs. rewrite length_app. simpl.
        replace (length folder + 1 - length folder)%nat with 1%nat by lia.
        simpl. rewrite take_app_length, Hd.
        rewrite !andb_true_iff. repeat split.
        -- apply Nat.ltb_lt. lia.
        -- now apply bool_decide_eq_true.
        -- unfold is_file, stat.
           destruct (folder ++ [n])%list eqn:E; [now destruct folder|].
           now rewrite Hf.
      * unfold suffix. now rewrite name_snoc.
  - intros Hd. destruct (find_media_files st folder) as [|m l] eqn:E; [reflexivity|].
    assert (Hm : In m (find_media_files st folder)) by (rewrite E; now left).
    unfold find_media_files in Hm. apply filter_In in Hm as [_ H].
    apply andb_true_iff in H as [Hw _]. apply walked_folder_is_dir in Hw. congruence.
Qed.

Ltac split_results :=
  repeat match goal with
         | |- context [match ?x with Ok _ => _ | Raise _ => _ end] => destruct x
         | |- context [let '(_, _) := ?x in _] => destruct x
         | |- context [if ?b then _ else _] => destruct b
         end.

(** ** The mirrored output path *)

Section Outputs.

Variable json_loads : string -> result json.
Variable int_of_str : string -> result Z.
Variable strftime_local : json -> result string.
Variable py_repr : json -> string.
Variable piexif_load : string -> result exif.
Variable piexif_dump : exif -> result string.
Variable image_save : string -> string -> string -> result string.
Variable exiftool_ver : completed.
Variable exiftool : list string -> fs -> result (Z * string * fs).

Local Abbreviation process :=
  (process_media_file json_loads int_of_str strftime_local py_repr piexif_load
     piexif_dump image_save exiftool_ver exiftool).
Local Abbreviation step :=
  (main_step json_loads int_of_str strftime_local py_repr piexif_load
     piexif_dump image_save exiftool_ver exiftool).
Local Abbreviation loop :=
  (main_loop json_loads int_of_str strftime_local py_repr piexif_load
     piexif_dump image_save exiftool_ver exiftool).
Local Abbreviation run :=
  (main json_loads int_of_str strftime_local py_repr piexif_load
     piexif_dump image_save exiftool_ver exiftool).
Local Abbreviation write_image :=
  (update_image_exif int_of_str strftime_local piexif_load piexif_dump image_save).
Local Abbreviation write_video :=
  (update_video_exif py_repr exiftool_ver exiftool).

Lemma update_image_exif_reports_nothing (st : fs) (f o : Path) (md : json) (e : event) :
  In e (snd (write_image st f o md)) -> reported_output e = None.
Proof.
  unfold update_image_exif. split_results; simpl; intros H;
    repeat (destruct H as [<-|H]; [reflexivity|]); destruct H.
Qed.

Lemma update_video_exif_reports_nothing (st : fs) (f o : Path) (md : json) (e : event) :
  In e (snd (write_video st f o md)) -> reported_output e = None.
Proof.
  unfold update_video_exif. split_results; simpl; intros H;
    repeat (destruct H as [<-|H]; [reflexivity|]); destruct H.
Qed.

(** Every outcome line of [process_media_file] names the file and its
    output path [output_folder / relative_path]. *)
Lemma process_reports_mirror (st : fs) (folder output_folder m : Path) (dry_run : bool)
    (success : bool) (st' : fs) (out : list event) (e : event) (m' o : Path) :
  discovered folder m ->
  process st m folder output_folder dry_run = Ok (success, st', out) ->
  In e out -> reported_output e = Some (m', o) ->
  m' = m /\ o = (output_folder ++ drop (length folder) m)%list.
Proof.
  intros [Hp Hm]. unfold process_media_file.
  rewrite (find_json_file_unfold st m Hm). cbn [rbind].
  destruct (List.find (exists_ st) (sidecar_candidates m)) as [j|].
  2:{ intros [= <- <- <-] [<-|[]] [=]. }
  destruct (load_json_metadata json_loads st j) as [[metadata|] lo] eqn:El.
  2:{ intros [= <- <- <-] He.
      destruct (load_json_metadata_none _ _ _ _ El) as [-> | ->].
      - destruct He.
      - destruct He as [<-|[]]. intros [=]. }
  apply load_json_metadata_some in El as ->.
  rewrite (relative_to_prefix _ _ Hp). cbn [rbind].
  destruct dry_run.
  { intros [= <- <- <-] [<-|[]] [= <- <-]. auto. }
  destruct (is_image m).
  - pose proof (update_image_exif_reports_nothing st m
                  (output_folder ++ drop (length folder) m) metadata) as Q.
    destruct (update_image_exif _ _ _ _ _ _ _ _ _) as [[s s'] wo]. simpl in Q.
    intros [= <- <- <-] He Hr. simpl in He.
    destruct He as [<-|He]; [discriminate|].
    apply in_app_or in He as [He|He]; [rewrite (Q e He) in Hr; discriminate|].
    destruct s; [|destruct He]. destruct He as [<-|[]].
    injection Hr as <- <-. auto.
  - destruct (is_video m).
    + pose proof (update_video_exif_reports_nothing st m
                    (output_folder ++ drop (length folder) m) metadata) as Q.
      destruct (update_video_exif _ _ _ _ _ _ _) as [[s s'] wo]. simpl in Q.
      intros [= <- <- <-] He Hr. simpl in He.
      destruct He as [<-|He]; [discriminate|].
      apply in_app_or in He as [He|He]; [rewrite (Q e He) in Hr; discriminate|].
      destruct s; [|destruct He]. destruct He as [<-|[]].
      injection Hr as <- <-. auto.
    + intros [= <- <- <-] [<-|[]] [=].
Qed.

(** X3. The output path that [process_media_file] reports for a discovered
    file (in a "would update" or an "updated" line) is the output folder
    followed by the file's path relative to the source folder, so taking
    it relative to the output folder gives that same relative path back;
    and two discovered files that report the same output path are the same
    file. *)
Theorem output_path_mirrors_source (st : fs) (folder output_folder m : Path)
    (dry_run success : bool) (st' : fs) (out : list event) (e : event) (m' o : Path) :
  discovered folder m ->
  process st m folder output_folder dry_run = Ok (success, st', out) ->
  In e out -> reported_output e = Some (m', o) ->
  m' = m
  /\ (exists rel,
        m = (folder ++ rel)%list /\ o = (output_folder ++ rel)%list
        /\ relative_to m folder = Ok rel
        /\ relative_to o output_folder = Ok rel)
  /\ (forall st2 m2 dry2 success2 st2' out2 e2 m2',
        discovered folder m2 ->
        process st2 m2 folder output_folder dry2 = Ok (success2, st2', out2) ->
        In e2 out2 -> reported_output e2 = Some (m2', o) ->
        m2 = m).
Proof.
  intros Hd Hp He Hr.
  destruct (process_reports_mirror _ _ _ _ _ _ _ _ _ _ _ Hd Hp He Hr) as [-> ->].
  split; [reflexivity|]. destruct Hd as [Hpre Hm]. split.
  - exists (drop (length folder) m). repeat split.
    + rewrite <- Hpre at 1. symmetry. apply take_drop.
    + now apply relative_to_prefix.
    + rewrite relative_to_prefix by apply take_app_length.
      now rewrite drop_app_length.
  - intros st2 m2 dry2 success2 st2' out2 e2 m2' Hd2 Hp2 He2 Hr2.
    destruct (process_reports_mirror _ _ _ _ _ _ _ _ _ _ _ Hd2 Hp2 He2 Hr2) as [_ Ho].
    apply app_inv_head in Ho. destruct Hd2 as [Hpre2 _].
    rewrite <- (take_drop (length folder) m2), <- (take_drop (length folder) m).
    now rewrite Hpre, Hpre2, Ho.
Qed.

End Outputs.

Lemma output_path_mirrors_source_witness :
  discovered ["photos"] ["photos"; "a.jpg"]
  /\ relative_to ["photos-exif"; "a.jpg"] ["photos-exif"] = Ok ["a.jpg"].
Proof.
  assert (Hd : discovered ["photos"] ["photos"; "a.jpg"]) by (split; reflexivity).
  split; [exact Hd|].
  destruct (proj1 (proj2 (output_path_mirrors_source
      JsonRef.loads Doubles.int_of_str Doubles.strftime_local Doubles.py_repr
      Doubles.piexif_load Doubles.piexif_dump Doubles.image_save (Exited 0)
      Doubles.exiftool_ok Doubles.tree ["photos"] ["photos-exif"] ["photos"; "a.jpg"]
      true true Doubles.tree
      [DryRunWouldUpdate ["photos"; "a.jpg"] ["photos-exif"; "a.jpg"]
         ["photos"; "a.jpg.json"]]
      (DryRunWouldUpdate ["photos"; "a.jpg"] ["photos-exif"; "a.jpg"]
         ["photos"; "a.jpg.json"])
      ["photos"; "a.jpg"] ["photos-exif"; "a.jpg"]
      Hd ltac:(vm_compute; reflexivity) (or_introl eq_refl) eq_refl)))
    as (rel & _ & Eo & _ & Hr).
  injection Eo as <-. exact Hr.
Defined.

(** ** The summary of a run *)

Section Summaries.

Variable json_loads : string -> result json.
Variable int_of_str : string -> result Z.
Variable strftime_local : json -> result string.
Variable py_repr : json -> string.
Variable piexif_load : string -> result exif.
Variable piexif_dump : exif -> result string.
Variable image_save : string -> string -> string -> result string.
Variable exiftool_ver : completed.
Variable exiftool : list string -> fs -> result (Z * string * fs).

Local Abbreviation process :=
  (process_media_file json_loads int_of_str strftime_local py_repr piexif_load
     piexif_dump image_save exiftool_ver exiftool).
Local Abbreviation step :=
  (main_step json_loads int_of_str strftime_local py_repr piexif_load
     piexif_dump image_save exiftool_ver exiftool).
Local Abbreviation loop :=
  (main_loop json_loads int_of_str strftime_local py_repr piexif_load
     piexif_dump image_save exiftool_ver exiftool).
Local Abbreviation run :=
  (main json_loads int_of_str strftime_local py_repr piexif_load
     piexif_dump image_save exiftool_ver exiftool).




End Summaries.

(** ** Sidecars that cannot be used, and the line that is never printed *)

Section Sidecars.

Variable json_loads : string -> result json.
Variable int_of_str : string -> result Z.
Variable strftime_local : json -> result string.
Variable py_repr : json -> string.
Variable piexif_load : string -> result exif.
Variable piexif_dump : exif -> result string.
Variable image_save : string -> string -> string -> result string.
Variable exiftool_ver : completed.
Variable exiftool : list string -> fs -> result (Z * string * fs).

Local Abbreviation process :=
  (process_media_file json_loads int_of_str strftime_local py_repr piexif_load
     piexif_dump image_save exiftool_ver exiftool).
Local Abbreviation step :=
  (main_step json_loads int_of_str strftime_local py_repr piexif_load
     piexif_dump image_save exiftool_ver exiftool).
Local Abbreviation loop :=
  (main_loop json_loads int_of_str strftime_local py_repr piexif_load
     piexif_dump image_save exiftool_ver exiftool).
Local Abbreviation run :=
  (main json_loads int_of_str strftime_local py_repr piexif_load
     piexif_dump image_save exiftool_ver exiftool).

(** X5. A sidecar whose text is the JSON value [null] makes its media file
    an error without any message: the error counter goes up by one, the
    trace and the filesystem stay as they were, in dry and in live runs.  A
    directory at the sidecar's path counts as a sidecar that is found; it
    cannot be read, the loading error is printed and the file is an error
    as well (not a skip). *)
Theorem unusable_sidecar_is_an_error (st : fs) (folder output_folder m j : Path)
    (dry_run : bool) (c : counts) (out : list event) :
  discovered folder m ->
  find_json_file st m = Ok (Some j) ->
  (forall text, read_file st j = Ok text -> json_loads text = Ok JNull ->
     step folder output_folder dry_run (c, st, out) m
     = Ok ({| success_count := success_count c;
              skipped_count := skipped_count c;
              error_count := error_count c + 1 |}, st, out))
  /\ (is_dir st j = true ->
      step folder output_folder dry_run (c, st, out) m
      = Ok ({| success_count := success_count c;
               skipped_count := skipped_count c;
               error_count := error_count c + 1 |}, st, out ++ [ErrorLoading j])%list).
Proof.
  intros Hd Hj. split.
  - intros text Hr Hn. unfold main_step, process_media_file.
    rewrite Hj. cbn [rbind]. unfold load_json_metadata. rewrite Hr. cbn [rbind].
    rewrite Hn. cbn [rbind]. now rewrite app_nil_r.
  - intros Hdir. unfold main_step, process_media_file.
    rewrite Hj. cbn [rbind]. unfold load_json_metadata, read_file.
    unfold is_dir in Hdir. destruct (stat st j) as [[|]|]; try discriminate.
    reflexivity.
Qed.






End Sidecars.

Lemma unusable_sidecar_is_an_error_witness :
  discovered ["photos"] ["photos"; "a.jpg"]
  /\ main_step JsonRef.loads Doubles.int_of_str Doubles.strftime_local Doubles.py_repr
       Doubles.piexif_load Doubles.piexif_dump Doubles.image_save (Exited 0)
       Doubles.exiftool_ok ["photos"] ["photos-exif"] false
       (zero_counts, <[ ["photos"; "a.jpg.json"] := File "null" ]> Doubles.tree, [])
       ["photos"; "a.jpg"]
     = Ok ({| success_count := 0; skipped_count := 0; error_count := 1 |},
           <[ ["photos"; "a.jpg.json"] := File "null" ]> Doubles.tree, []).
Proof.
  assert (Hd : discovered ["photos"] ["photos"; "a.jpg"]) by (split; reflexivity).
  split; [exact Hd|].
  refine (proj1 (unusable_sidecar_is_an_error
      JsonRef.loads Doubles.int_of_str Doubles.strftime_local Doubles.py_repr
      Doubles.piexif_load Doubles.piexif_dump Doubles.image_save (Exited 0)
      Doubles.exiftool_ok
      (<[ ["photos"; "a.jpg.json"] := File "null" ]> Doubles.tree)
      ["photos"] ["photos-exif"] ["photos"; "a.jpg"] ["photos"; "a.jpg.json"]
      false zero_counts [] Hd _) "null" _ _); vm_compute; reflexivity.
Defined.

(** ** What the image writer assigns and what it keeps *)

Lemma keeps_other_tags_refl (e : exif) : keeps_other_tags e e.
Proof. repeat split; auto. Qed.

Lemma keeps_other_tags_trans (a b c : exif) :
  keeps_other_tags a b -> keeps_other_tags b c -> keeps_other_tags a c.
Proof.
  intros (A1 & A2 & A3 & A4) (B1 & B2 & B3 & B4). repeat split.
  - congruence.
  - intros t Ht. now rewrite B2, A2.
  - intros t Ht. now rewrite B3, A3.
  - destruct B4 as [B4|B4]; [|now right].
    rewrite B4. exact A4.
Qed.

Lemma set_0th_keeps (t : Z) (v : exif_value) (e : exif) :
  In t written_0th -> keeps_other_tags e (set_0th t v e).
Proof.
  intros Ht. repeat split; auto. intros t' Ht'. simpl.
  apply lookup_insert_ne. congruence.
Qed.

Lemma set_Exif_keeps (t : Z) (v : exif_value) (e : exif) :
  In t written_Exif -> keeps_other_tags e (set_Exif t v e).
Proof.
  intros Ht. repeat split; auto. intros t' Ht'. simpl.
  apply lookup_insert_ne. congruence.
Qed.

Lemma create_gps_exif_tags (lat lon : json) (g : gmap Z exif_value) (t : Z) :
  create_gps_exif lat lon = Ok g -> is_Some (g !! t) <-> In t written_GPS.
Proof.
  unfold create_gps_exif. destruct (as_number lat) as [la|]; [|discriminate].
  destruct (as_number lon) as [lo|]; [|discriminate]. cbn [rbind]. intros [= <-].
  unfold written_GPS, GPSIFD.GPSLongitude, GPSIFD.GPSLongitudeRef,
    GPSIFD.GPSLatitude, GPSIFD.GPSLatitudeRef.
  split.
  - intros [v Hv].
    destruct (decide (t = 4%Z)) as [->|N4]; [simpl; auto|].
    destruct (decide (t = 3%Z)) as [->|N3]; [simpl; auto|].
    destruct (decide (t = 2%Z)) as [->|N2]; [simpl; auto|].
    destruct (decide (t = 1%Z)) as [->|N1]; [simpl; auto|].
    rewrite !lookup_insert_ne in Hv by congruence.
    rewrite lookup_empty in Hv. discriminate.
  - intros [<-|[<-|[<-|[<-|[]]]]]; eexists; reflexivity.
Qed.

Section Setters.

Variable int_of_str : string -> result Z.
Variable strftime_local : json -> result string.

Lemma exif_set_datetime_keeps (md : json) (e e' : exif) :
  exif_set_datetime int_of_str strftime_local md e = Ok e' -> keeps_other_tags e e'.
Proof.
  unfold exif_set_datetime.
  destruct (py_contains "photoTakenTime" md) as [[]|]; cbn [rbind];
    [|intros [= <-]; apply keeps_other_tags_refl|discriminate].
  destruct (py_get md "photoTakenTime" (JObj [])) as [taken|]; cbn [rbind]; [|discriminate].
  destruct (py_get taken "timestamp" JNull) as [ts|]; cbn [rbind]; [|discriminate].
  destruct (is_none ts); [intros [= <-]; apply keeps_other_tags_refl|].
  destruct (convert_timestamp_to_exif int_of_str strftime_local ts) as [s|];
    cbn [rbind]; [|discriminate].
  intros [= <-].
  eapply keeps_other_tags_trans; [|apply set_Exif_keeps; simpl; auto].
  eapply keeps_other_tags_trans; [|apply set_Exif_keeps; simpl; auto].
  apply set_0th_keeps. simpl. auto.
Qed.

Lemma exif_set_title_keeps (md : json) (e e' : exif) :
  exif_set_title md e = Ok e' -> keeps_other_tags e e'.
Proof.
  unfold exif_set_title.
  destruct (contains_or md "title" "Title") as [[]|]; cbn [rbind];
    [|intros [= <-]; apply keeps_other_tags_refl|discriminate].
  destruct (get_or md "title" "Title") as [v|]; cbn [rbind]; [|discriminate].
  destruct (is_none v); [intros [= <-]; apply keeps_other_tags_refl|].
  destruct (py_encode Utf16le v); cbn [rbind]; [|discriminate].
  intros [= <-]. apply set_0th_keeps. simpl. auto.
Qed.

Lemma exif_set_description_keeps (md : json) (e e' : exif) :
  exif_set_description md e = Ok e' -> keeps_other_tags e e'.
Proof.
  unfold exif_set_description.
  destruct (contains_or md "description" "Description") as [[]|]; cbn [rbind];
    [|intros [= <-]; apply keeps_other_tags_refl|discriminate].
  destruct (get_or md "description" "Description") as [v|]; cbn [rbind]; [|discriminate].
  destruct (is_none v); [intros [= <-]; apply keeps_other_tags_refl|].
  destruct (py_encode Utf8 v); cbn [rbind]; [|discriminate].
  intros [= <-]. apply set_0th_keeps. simpl. auto.
Qed.

Lemma exif_set_people_keeps (md : json) (e e' : exif) :
  exif_set_people md e = Ok e' -> keeps_other_tags e e'.
Proof.
  unfold exif_set_people.
  destruct (py_contains "people" md) as [[]|]; cbn [rbind];
    [|intros [= <-]; apply keeps_other_tags_refl|discriminate].
  destruct (py_getitem md "people") as [v|]; cbn [rbind]; [|discriminate].
  destruct v; try (intros [= <-]; apply keeps_other_tags_refl).
  destruct (people_str l); cbn [rbind]; [|discriminate].
  intros [= <-]. apply set_0th_keeps. simpl. auto.
Qed.

Lemma exif_set_gps_keeps (md : json) (e e' : exif) :
  exif_set_gps md e = Ok e' -> keeps_other_tags e e'.
Proof.
  unfold exif_set_gps.
  destruct (py_contains "geoData" md) as [[]|]; cbn [rbind];
    [|intros [= <-]; apply keeps_other_tags_refl|discriminate].
  destruct (py_getitem md "geoData") as [geo|]; cbn [rbind]; [|discriminate].
  destruct (is_none geo); [intros [= <-]; apply keeps_other_tags_refl|].
  destruct (py_contains "latitude" geo) as [has_lat|]; cbn [rbind]; [|discriminate].
  destruct (if has_lat then py_contains "longitude" geo else Ok false) as [[]|];
    cbn [rbind]; [|intros [= <-]; apply keeps_other_tags_refl|discriminate].
  destruct (py_getitem geo "latitude") as [lat|]; cbn [rbind]; [|discriminate].
  destruct (py_getitem geo "longitude") as [lon|]; cbn [rbind]; [|discriminate].
  destruct (is_none lat || is_none lon); [intros [= <-]; apply keeps_other_tags_refl|].
  destruct (create_gps_exif lat lon) as [g|] eqn:Eg; cbn [rbind]; [|discriminate].
  intros [= <-]. repeat split; auto. right. intros t. simpl.
  now apply create_gps_exif_tags with (lat := lat) (lon := lon).
Qed.

Variable piexif_load : string -> result exif.

(** X7. The EXIF dictionary an image is saved with keeps every tag of the
    dictionary loaded from the source image (or of the empty one, when
    none loads) except the ones the writer assigns: DateTime, XPTitle,
    ImageDescription and XPComment in the 0th IFD, DateTimeOriginal and
    DateTimeDigitized in the Exif IFD; the 1st IFD is kept whole.  The GPS
    block is either kept whole or replaced as a whole: after a replacement
    it holds the four latitude/longitude tags and no other tag that the
    source image had (an altitude is lost). *)
Theorem image_exif_keeps_other_tags (st : fs) (image_file : Path) (metadata : json)
    (e : exif) :
  image_exif int_of_str strftime_local piexif_load st image_file metadata = Ok e ->
  keeps_other_tags (loaded_exif piexif_load st image_file) e.
Proof.
  unfold image_exif. fold (loaded_exif piexif_load st image_file).
  generalize (loaded_exif piexif_load st image_file). intros e0.
  destruct (exif_set_datetime _ _ metadata e0) as [e1|] eqn:E1; cbn [rbind]; [|discriminate].
  destruct (exif_set_title metadata e1) as [e2|] eqn:E2; cbn [rbind]; [|discriminate].
  destruct (exif_set_description metadata e2) as [e3|] eqn:E3; cbn [rbind]; [|discriminate].
  destruct (exif_set_people metadata e3) as [e4|] eqn:E4; cbn [rbind]; [|discriminate].
  intros E5.
  apply exif_set_datetime_keeps in E1. apply exif_set_title_keeps in E2.
  apply exif_set_description_keeps in E3. apply exif_set_people_keeps in E4.
  apply exif_set_gps_keeps in E5.
  eauto using keeps_other_tags_trans.
Qed.

End Setters.

(** ** Values the image writer ignores, and values it fails on *)

Lemma py_join_not_strings (sep : string) (names : list json) :
  existsb (fun v => negb (is_string v)) names = true ->
  py_join sep names = Raise TypeError.
Proof.
  induction names as [|v rest IH]; [discriminate|].
  cbn [existsb]. intros H. destruct v; try reflexivity.
  cbn [is_string negb orb] in H. specialize (IH H).
  cbn [py_join]. destruct rest as [|v' rest']; [discriminate|].
  now rewrite IH.
Qed.

Lemma people_names_objects (people : list json) :
  forallb is_object people = true ->
  exists names,
    people_names people = Ok names
    /\ (existsb has_bad_name people = true ->
        existsb (fun v => negb (is_string v)) names = true).
Proof.
  induction people as [|p people IH]; [intros _; exists []; split; [reflexivity|discriminate]|].
  cbn [forallb]. intros H. apply andb_true_iff in H as [Hp H].
  destruct (IH H) as (names & En & Hbad).
  destruct p as [| | | | |kv]; try discriminate.
  cbn [people_names py_contains py_get rbind existsb has_bad_name].
  destruct (dict_lookup "name" kv) as [v|]; cbn [rbind].
  - rewrite En. cbn [rbind]. eexists. split; [reflexivity|].
    cbn [existsb]. intros Hb. apply orb_true_iff in Hb as [Hb|Hb].
    + destruct v; try discriminate; reflexivity.
    + rewrite (Hbad Hb). apply orb_true_r.
  - exists names. split; [exact En|]. exact Hbad.
Qed.

Section Values.

Variable int_of_str : string -> result Z.
Variable strftime_local : json -> result string.
Variable piexif_load : string -> result exif.
Variable piexif_dump : exif -> result string.
Variable image_save : string -> string -> string -> result string.

Local Abbreviation set_datetime := (exif_set_datetime int_of_str strftime_local).
Local Abbreviation exif_of := (image_exif int_of_str strftime_local piexif_load).
Local Abbreviation write_image :=
  (update_image_exif int_of_str strftime_local piexif_load piexif_dump image_save).

(** X8. A sidecar object with none of the keys the image writer reads
    (for instance one written for a video, with [make], [model] or
    [gpsLatitude]) assigns no tag: the image is saved with the EXIF
    dictionary loaded from the source, or with the empty one. *)
Theorem sidecar_without_image_keys_assigns_nothing (st : fs) (image_file : Path)
    (kv : list (string * json)) :
  (forall k, In k image_keys -> dict_lookup k kv = None) ->
  exif_of st image_file (JObj kv) = Ok (loaded_exif piexif_load st image_file).
Proof.
  intros H. unfold image_exif. fold (loaded_exif piexif_load st image_file).
  unfold exif_set_datetime, exif_set_title, exif_set_description, exif_set_people,
    exif_set_gps, contains_or, py_contains.
  rewrite !H by (unfold image_keys; simpl; auto 10). reflexivity.
Qed.

(** X9. A numeric or string [photoTakenTime.timestamp] that converts to the
    text [s] sets DateTime, DateTimeOriginal and DateTimeDigitized to that
    one text.  A string timestamp is read with [int] first, so it gives
    what the number gives; a string that [int] rejects makes the
    conversion raise. *)
Theorem timestamp_sets_three_tags (kv tk : list (string * json)) (ts : json)
    (s : string) (e : exif) :
  dict_lookup "photoTakenTime" kv = Some (JObj tk) ->
  dict_lookup "timestamp" tk = Some ts ->
  is_none ts = false ->
  convert_timestamp_to_exif int_of_str strftime_local ts = Ok s ->
  (exists e',
     set_datetime (JObj kv) e = Ok e'
     /\ ifd_0th e' !! ImageIFD.DateTime = Some (Encoded Utf8 s)
     /\ ifd_Exif e' !! ExifIFD.DateTimeOriginal = Some (Encoded Utf8 s)
     /\ ifd_Exif e' !! ExifIFD.DateTimeDigitized = Some (Encoded Utf8 s))
  /\ (forall text z, int_of_str text = Ok z ->
        convert_timestamp_to_exif int_of_str strftime_local (JStr text)
        = convert_timestamp_to_exif int_of_str strftime_local (JNum (inject_Z z)))
  /\ (forall text x, int_of_str text = Raise x ->
        convert_timestamp_to_exif int_of_str strftime_local (JStr text) = Raise x).
Proof.
  intros Hk Ht Hn Hc. split; [|split].
  - unfold exif_set_datetime, py_contains, py_get. rewrite Hk. cbn [rbind].
    rewrite Ht. cbn [rbind]. rewrite Hn, Hc. cbn [rbind].
    eexists. split; [reflexivity|]. simpl.
    unfold ExifIFD.DateTimeOriginal, ExifIFD.DateTimeDigitized.
    rewrite !lookup_insert_eq. split; [reflexivity|]. split; [|reflexivity].
    rewrite lookup_insert_ne by discriminate. apply lookup_insert_eq.
  - intros text z Hz. unfold convert_timestamp_to_exif. now rewrite Hz.
  - intros text x Hx. unfold convert_timestamp_to_exif. now rewrite Hx.
Qed.

Lemma image_exif_raises_write_fails (st : fs) (image_file output_file : Path)
    (md : json) (x : exn) :
  exif_of st image_file md = Raise x ->
  write_image st image_file output_file md = (false, st, [ErrorUpdatingExif image_file]).
Proof. intros H. unfold update_image_exif. now rewrite H. Qed.

Lemma setter_raises_image_exif_raises (st : fs) (image_file : Path) (md : json) :
  (forall e, exists x, exif_set_title md e = Raise x)
  \/ (forall e, exists x, exif_set_people md e = Raise x)
  \/ (forall e, exists x, set_datetime md e = Raise x) ->
  exists x, exif_of st image_file md = Raise x.
Proof.
  intros H. unfold image_exif.
  generalize (match (raw <-! read_file st image_file; piexif_load raw) with
              | Ok d => d | Raise _ => empty_exif end). intros e0.
  destruct (exif_set_datetime int_of_str strftime_local md e0) as [e1|x1] eqn:E1;
    cbn [rbind]; [|eauto].
  destruct (exif_set_title md e1) as [e2|x2] eqn:E2; cbn [rbind]; [|eauto].
  destruct (exif_set_description md e2) as [e3|x3]; cbn [rbind]; [|eauto].
  destruct (exif_set_people md e3) as [e4|x4] eqn:E4; cbn [rbind]; [|eauto].
  exfalso. destruct H as [H|[H|H]].
  - destruct (H e1). congruence.
  - destruct (H e3). congruence.
  - destruct (H e0). congruence.
Qed.

(** X10. One wrongly typed value fails the whole image.  When the [people]
    list of a sidecar holds objects and one of them has a [name] that is
    not a string (a number, [null]), or when the decoded title is a truthy
    value that is not a string, [update_image_exif] returns [False] with
    the filesystem untouched: no directory is made and no image is written,
    whatever else the sidecar holds. *)
Theorem wrongly_typed_value_fails_the_image (st : fs) (image_file output_file : Path)
    (kv : list (string * json)) :
  (forall people,
     dict_lookup "people" kv = Some (JArr people) ->
     forallb is_object people = true -> existsb has_bad_name people = true ->
     write_image st image_file output_file (JObj kv)
     = (false, st, [ErrorUpdatingExif image_file]))
  /\ (forall v,
        dict_lookup "title" kv = Some v -> truthy v = true -> is_string v = false ->
        write_image st image_file output_file (JObj kv)
        = (false, st, [ErrorUpdatingExif image_file])).
Proof.
  split.
  - intros people Hk Ho Hb.
    destruct (setter_raises_image_exif_raises st image_file (JObj kv)) as [x Hx].
    + right. left. intros e. unfold exif_set_people, py_contains, py_getitem.
      rewrite Hk. cbn [rbind]. unfold people_str.
      destruct (people_names_objects people Ho) as (names & -> & Hn). cbn [rbind].
      rewrite (py_join_not_strings _ _ (Hn Hb)). cbn [rbind]. eauto.
    + now apply image_exif_raises_write_fails with (x := x).
  - intros v Hk Hv Hs.
    destruct (setter_raises_image_exif_raises st image_file (JObj kv)) as [x Hx].
    + left. intros e. unfold exif_set_title.
      rewrite (contains_or_either kv _ _ v (or_introl Hk)). cbn [rbind].
      rewrite (get_or_first kv _ _ v Hk Hv). cbn [rbind].
      destruct v; try discriminate; cbn [is_none py_encode rbind]; eauto.
    + now apply image_exif_raises_write_fails with (x := x).
Qed.

(** X11. A [null] under [photoTakenTime] fails the image, while a [null]
    under [geoData], [people], or under the only title or description key
    is passed over: [metadata.get('photoTakenTime', {})] hands back the
    [null], whose [get] raises, and the other fields are tested against
    [None] before they are used. *)
Theorem null_fields (st : fs) (image_file output_file : Path)
    (kv : list (string * json)) (e : exif) :
  (dict_lookup "photoTakenTime" kv = Some JNull ->
   set_datetime (JObj kv) e = Raise AttributeError
   /\ write_image st image_file output_file (JObj kv)
      = (false, st, [ErrorUpdatingExif image_file]))
  /\ (dict_lookup "geoData" kv = Some JNull -> exif_set_gps (JObj kv) e = Ok e)
  /\ (dict_lookup "people" kv = Some JNull -> exif_set_people (JObj kv) e = Ok e)
  /\ (dict_lookup "title" kv = Some JNull -> dict_lookup "Title" kv = None ->
      exif_set_title (JObj kv) e = Ok e)
  /\ (dict_lookup "description" kv = Some JNull ->
      dict_lookup "Description" kv = None ->
      exif_set_description (JObj kv) e = Ok e).
Proof.
  assert (Hd : forall e0, dict_lookup "photoTakenTime" kv = Some JNull ->
                          set_datetime (JObj kv) e0 = Raise AttributeError).
  { intros e0 H. unfold exif_set_datetime, py_contains, py_get. now rewrite H. }
  split; [|split; [|split; [|split]]].
  - intros H. split; [now apply Hd|].
    destruct (setter_raises_image_exif_raises st image_file (JObj kv)) as [x Hx].
    + right. right. intros e0. rewrite (Hd e0 H). eauto.
    + now apply image_exif_raises_write_fails with (x := x).
  - intros H. unfold exif_set_gps, py_contains, py_getitem. now rewrite H.
  - intros H. unfold exif_set_people, py_contains, py_getitem. now rewrite H.
  - intros H1 H2. unfold exif_set_title, contains_or, get_or, py_contains, py_get.
    now rewrite H1, H2.
  - intros H1 H2. unfold exif_set_description, contains_or, get_or, py_contains, py_get.
    now rewrite H1, H2.
Qed.

End Values.

(** ** What the writers do to the filesystem *)

Lemma lookup_mkdirs_in (st : fs) (l : list Path) (q : Path) :
  In q l -> foldr (fun d acc => <[d := Dir]> acc) st l !! q = Some Dir.
Proof.
  induction l as [|d l IH]; [intros []|]. cbn [foldr]. intros H.
  destruct (decide (d = q)) as [->|Hne]; [apply lookup_insert_eq|].
  rewrite lookup_insert_ne by exact Hne. apply IH. destruct H; congruence.
Qed.

Lemma lookup_mkdirs_out (st : fs) (l : list Path) (q : Path) :
  ~ In q l -> foldr (fun d acc => <[d := Dir]> acc) st l !! q = st !! q.
Proof.
  induction l as [|d l IH]; [reflexivity|]. cbn [foldr]. intros H.
  rewrite lookup_insert_ne by (intros ->; apply H; now left).
  apply IH. intros Hin. apply H. now right.
Qed.

Lemma In_dec_path (q : Path) (l : list Path) : In q l \/ ~ In q l.
Proof.
  destruct (decide (q ∈ l)) as [H|H].
  - left. now apply list_elem_of_In.
  - right. intros Hin. apply H. now apply list_elem_of_In.
Qed.

Lemma prefixes_length (p q : Path) :
  In q (prefixes p) -> (1 <= length q <= length p)%nat.
Proof.
  unfold prefixes. rewrite in_map_iff. intros (n & <- & Hn).
  apply in_seq in Hn. rewrite length_take. lia.
Qed.

Lemma prefixes_self (p : Path) : p <> [] -> In p (prefixes p).
Proof.
  intros Hp. unfold prefixes. apply in_map_iff. exists (length p). split.
  - apply firstn_all.
  - apply in_seq. destruct p; [congruence | simpl; lia].
Qed.

Lemma stat_lookup (st : fs) (q : Path) : q <> [] -> stat st q = st !! q.
Proof. now destruct q. Qed.

(** [mkdir(parents=True, exist_ok=True)] keeps every node there is and
    leaves [p] a directory. *)
Lemma mkdir_parents_keeps (st st1 : fs) (p : Path) :
  mkdir_parents st p = Ok st1 ->
  (forall q n, st !! q = Some n -> st1 !! q = Some n)
  /\ (forall q, (length p < length q)%nat -> st1 !! q = st !! q)
  /\ is_dir st1 p = true.
Proof.
  unfold mkdir_parents.
  destruct (existsb (is_file st) (prefixes p)) eqn:E; [discriminate|].
  intros [= <-]. split; [|split].
  - intros q n Hq.
    destruct (In_dec_path q (prefixes p)) as [Eq|Eq];
      [|now rewrite lookup_mkdirs_out].
    rewrite lookup_mkdirs_in by exact Eq.
    assert (Hf : is_file st q = false).
    { destruct (is_file st q) eqn:F; [|reflexivity].
      assert (existsb (is_file st) (prefixes p) = true)
        by (apply existsb_exists; eauto).
      congruence. }
    apply prefixes_length in Eq. unfold is_file in Hf.
    rewrite stat_lookup, Hq in Hf by (destruct q; [simpl in Eq; lia | discriminate]).
    now destruct n.
  - intros q Hl. apply lookup_mkdirs_out.
    intros Hin. apply prefixes_length in Hin. lia.
  - destruct p as [|c p]; [reflexivity|].
    unfold is_dir. rewrite stat_lookup by discriminate.
    rewrite lookup_mkdirs_in; [reflexivity|].
    now apply prefixes_self.
Qed.

Lemma parent_length (p : Path) : p <> [] -> (length (parent p) < length p)%nat.
Proof.
  intros Hp. unfold parent. destruct (exists_last Hp) as (l & a & ->).
  rewrite removelast_last, length_app. simpl. lia.
Qed.

Lemma write_file_keeps (st st2 : fs) (p : Path) (content : string) :
  write_file st p content = Ok st2 ->
  p <> [] /\ st2 = <[p := File content]> st /\ is_dir st (parent p) = true.
Proof.
  unfold write_file. destruct (is_dir st p) eqn:Ed; [discriminate|].
  destruct (is_dir st (parent p)) eqn:Ep; [|discriminate]. cbn [negb].
  intros [= <-]. repeat split; auto. intros ->. discriminate.
Qed.

Section Frames.

Variable int_of_str : string -> result Z.
Variable strftime_local : json -> result string.
Variable py_repr : json -> string.
Variable piexif_load : string -> result exif.
Variable piexif_dump : exif -> result string.
Variable image_save : string -> string -> string -> result string.
Variable exiftool_ver : completed.
Variable exiftool : list string -> fs -> result (Z * string * fs).

Local Abbreviation write_image :=
  (update_image_exif int_of_str strftime_local piexif_load piexif_dump image_save).
Local Abbreviation write_video :=
  (update_video_exif py_repr exiftool_ver exiftool).


End Frames.

(** ** The exiftool command *)

Lemma contains_or_object (kv : list (string * json)) (k1 k2 : string) :
  exists b, contains_or (JObj kv) k1 k2 = Ok b.
Proof.
  unfold contains_or, py_contains. cbn [rbind].
  destruct (dict_lookup k1 kv); [eauto|]. destruct (dict_lookup k2 kv); eauto.
Qed.

Lemma get_or_object (kv : list (string * json)) (k1 k2 : string) :
  exists v, get_or (JObj kv) k1 k2 = Ok v.
Proof.
  unfold get_or, py_get. cbn [rbind].
  destruct (truthy _); eauto.
Qed.

Section Command.

Variable py_repr : json -> string.

Ltac run_video_cmd kv :=
  unfold video_cmd;
  destruct (contains_or_object kv "dateTime" "DateTime") as [b1 ->];
  destruct (get_or_object kv "dateTime" "DateTime") as [v1 ->];
  destruct (contains_or_object kv "description" "Description") as [b2 ->];
  destruct (get_or_object kv "description" "Description") as [v2 ->];
  destruct (contains_or_object kv "make" "Make") as [b3 ->];
  destruct (get_or_object kv "make" "Make") as [v3 ->];
  destruct (contains_or_object kv "model" "Model") as [b4 ->];
  destruct (get_or_object kv "model" "Model") as [v4 ->];
  unfold py_contains, py_getitem;
  destruct (dict_lookup "gpsLatitude" kv) as [lat|];
  destruct (dict_lookup "gpsLongitude" kv) as [lon|];
  destruct b1, b2, b3, b4; cbn [rbind].

(** X13. For a sidecar object, building the exiftool command never raises.
    The command starts with [exiftool -overwrite_original], ends with the
    output path, which is its only file argument, and holds between the
    two at most seven arguments, each of them an option starting
    with [-]. *)
Theorem video_cmd_shape (kv : list (string * json)) (output_file : Path) :
  exists cmd,
    video_cmd py_repr (JObj kv) output_file = Ok cmd
    /\ List.firstn 2 cmd = ["exiftool"; "-overwrite_original"]
    /\ List.last cmd "" = path_str output_file
    /\ (3 <= length cmd <= 10)%nat
    /\ List.Forall (fun a => startswith_char "-" a = true)
         (List.skipn 1 (List.removelast cmd)).
Proof.
  run_video_cmd kv;
    (eexists; split; [reflexivity|]; split; [reflexivity|]; split; [reflexivity|];
     split; [simpl; lia|]; simpl; repeat constructor).
Qed.

(** X14. The exiftool command depends on ten keys of the sidecar only:
    two sidecar objects that agree on them give the same command.  In
    particular [photoTakenTime], [title], [people] and [geoData] are not
    read for a video, and a sidecar with none of the ten keys gives the
    bare command: exiftool is run on the copy without any tag. *)
Theorem video_cmd_reads_ten_keys (kv kv' : list (string * json)) (output_file : Path) :
  (forall k, In k video_keys -> dict_lookup k kv = dict_lookup k kv') ->
  video_cmd py_repr (JObj kv) output_file = video_cmd py_repr (JObj kv') output_file
  /\ ((forall k, In k video_keys -> dict_lookup k kv' = None) ->
      video_cmd py_repr (JObj kv) output_file
      = Ok ["exiftool"; "-overwrite_original"; path_str output_file]).
Proof.
  intros H.
  assert (E : video_cmd py_repr (JObj kv) output_file
              = video_cmd py_repr (JObj kv') output_file).
  { unfold video_cmd, contains_or, get_or, py_contains, py_get, py_getitem.
    rewrite !H by (unfold video_keys; simpl; auto 12). reflexivity. }
  split; [exact E|]. intros H'. rewrite E.
  unfold video_cmd, contains_or, get_or, py_contains, py_get, py_getitem.
  rewrite !H' by (unfold video_keys; simpl; auto 12). reflexivity.
Qed.

(** X15. A description that is present but falsy (the empty string, for
    instance), with no [Description] beside it, reaches exiftool as the
    text Python prints for [None]: the key is found, [get(...) or get(...)]
    yields [None], and the f-string formats it.  The image writer, given
    the same sidecar, tests for [None] and assigns no description. *)
Theorem empty_description_is_sent_as_none (kv : list (string * json)) (v : json)
    (output_file : Path) (e : exif) :
  dict_lookup "description" kv = Some v -> truthy v = false ->
  dict_lookup "Description" kv = None ->
  (exists cmd,
     video_cmd py_repr (JObj kv) output_file = Ok cmd
     /\ In ("-Description=" +:+ py_repr JNull) cmd)
  /\ exif_set_description (JObj kv) e = Ok e.
Proof.
  intros Hd Hv HD.
  assert (Hc : contains_or (JObj kv) "description" "Description" = Ok true)
    by (apply (contains_or_either kv _ _ v); now left).
  assert (Hg : get_or (JObj kv) "description" "Description" = Ok JNull)
    by (unfold get_or, py_get; cbn [rbind]; now rewrite Hd, Hv, HD).
  split.
  - unfold video_cmd. rewrite Hc, Hg.
    destruct (contains_or_object kv "dateTime" "DateTime") as [b1 ->].
    destruct (get_or_object kv "dateTime" "DateTime") as [v1 ->].
    destruct (contains_or_object kv "make" "Make") as [b3 ->].
    destruct (get_or_object kv "make" "Make") as [v3 ->].
    destruct (contains_or_object kv "model" "Model") as [b4 ->].
    destruct (get_or_object kv "model" "Model") as [v4 ->].
    unfold py_contains, py_getitem.
    destruct (dict_lookup "gpsLatitude" kv) as [lat|];
      destruct (dict_lookup "gpsLongitude" kv) as [lon|];
      destruct b1, b3, b4; cbn [rbind];
      (eexists; split; [reflexivity|]; simpl; auto 12).
  - unfold exif_set_description. rewrite Hc, Hg. reflexivity.
Qed.

End Command.

(** ** The video writer and its copy *)

Section Copies.

Variable py_repr : json -> string.
Variable exiftool_ver : completed.
Variable exiftool : list string -> fs -> result (Z * string * fs).

Local Abbreviation write_video :=
  (update_video_exif py_repr exiftool_ver exiftool).

(** X16. Whenever [update_video_exif] gets as far as running exiftool, the
    tool is run on a filesystem in which the output path holds the bytes of
    the source video verbatim and every other file and directory that
    existed is unchanged; the writer then reports success exactly when the
    exit status is 0, and hands back the filesystem the tool left. *)
Theorem exiftool_runs_on_a_verbatim_copy (st : fs) (video_file output_file : Path)
    (metadata : json) (content : string) (success : bool) (st' : fs)
    (out : list event) :
  check_exiftool_installed exiftool_ver = true ->
  read_file st video_file = Ok content ->
  is_dir st output_file = false ->
  write_video st video_file output_file metadata = (success, st', out) ->
  out <> [ErrorUpdatingMetadata video_file] ->
  exists cmd st2 returncode stderr,
    video_cmd py_repr metadata output_file = Ok cmd
    /\ exiftool cmd st2 = Ok (returncode, stderr, st')
    /\ st2 !! output_file = Some (File content)
    /\ (forall q n, st !! q = Some n -> q <> output_file -> st2 !! q = Some n)
    /\ success = (returncode =? 0)%Z
    /\ out = (if (returncode =? 0)%Z then []
              else [ExiftoolError video_file stderr]).
Proof.
  intros Hi Hr Hd. unfold update_video_exif. rewrite Hi. cbn [negb].
  destruct (mkdir_parents st (parent output_file)) as [st1|] eqn:Em;
    [|intros [= <- <- <-] H; congruence].
  destruct (mkdir_parents_keeps _ _ _ Em) as (K1 & K2 & K3).
  assert (Ho : output_file <> []) by (intros ->; discriminate).
  assert (Hv : st !! video_file = Some (File content)).
  { unfold read_file in Hr. destruct video_file; [discriminate|].
    simpl in Hr. destruct (st !! (s :: video_file)) as [[|c]|]; congruence. }
  assert (Hr1 : read_file st1 video_file = Ok content).
  { unfold read_file. destruct video_file; [discriminate|]. simpl.
    now rewrite (K1 _ _ Hv). }
  assert (Hd1 : is_dir st1 output_file = false).
  { unfold is_dir in *. rewrite stat_lookup in * by exact Ho.
    rewrite K2; [exact Hd | now apply parent_length]. }
  unfold copy2. rewrite Hr1. cbn [rbind]. rewrite Hd1.
  destruct (bool_decide (video_file = output_file)); [intros [= <- <- <-] H; congruence|].
  destruct (write_file st1 output_file content) as [st2|] eqn:Ew;
    [|intros [= <- <- <-] H; congruence].
  apply write_file_keeps in Ew as (_ & -> & _).
  destruct (video_cmd py_repr metadata output_file) as [cmd|]; cbn [rbind];
    [|intros [= <- <- <-] H; congruence].
  destruct (exiftool cmd (<[output_file:=File content]> st1)) as [[[rc err] st3]|] eqn:Et;
    [|intros [= <- <- <-] H; congruence].
  intros Hres _. exists cmd, (<[output_file:=File content]> st1), rc, err.
  split; [reflexivity|].
  destruct (rc =? 0)%Z; injection Hres as <- <- <-;
    (split; [exact Et|]; split; [apply lookup_insert_eq|];
     split; [|split; reflexivity];
     intros q n Hq Hne; rewrite lookup_insert_ne by congruence; now apply K1).
Qed.

(** X17. With an empty output suffix the output folder is the source
    folder itself (for a folder whose name is an ordinary path component);
    and a video whose output path is its own path is never updated:
    copying it onto itself fails, exiftool is not run, and the file keeps
    its bytes. *)
Theorem video_onto_itself_fails (st : fs) (folder video_file : Path) (metadata : json) :
  (folder <> [] -> contains_char "/" (name folder) = false ->
   name folder <> "" -> name folder <> "." ->
   output_folder_of folder "" = folder)
  /\ (check_exiftool_installed exiftool_ver = true ->
      is_file st video_file = true ->
      let '(success, st', out) := write_video st video_file video_file metadata in
      success = false /\ out = [ErrorUpdatingMetadata video_file]
      /\ st' !! video_file = st !! video_file).
Proof.
  split.
  - intros Hf Hs Hn Hdot. unfold output_folder_of, joinpath.
    rewrite append_nil_r.
    assert (Hsplit : forall n, contains_char "/" n = false -> split_on "/" n = [n]).
    { induction n as [|a n IH]; [reflexivity|]. simpl. intros H.
      apply orb_false_iff in H as [Ha H]. rewrite Ha, (IH H). reflexivity. }
    rewrite (Hsplit _ Hs). simpl.
    apply String.eqb_neq in Hn, Hdot. rewrite Hn, Hdot. simpl.
    replace (startswith_char "/" (name folder)) with false.
    + unfold parent, name. symmetry. now apply app_removelast_last.
    + destruct (name folder); [reflexivity|]. simpl in *.
      now apply orb_false_iff in Hs as [-> _].
  - intros Hi Hf. unfold update_video_exif. rewrite Hi. cbn [negb].
    destruct (mkdir_parents st (parent video_file)) as [st1|] eqn:Em; [|auto].
    destruct (mkdir_parents_keeps _ _ _ Em) as (K1 & K2 & K3).
    unfold is_file in Hf. destruct video_file as [|c p] eqn:Ev; [discriminate|].
    rewrite stat_lookup in Hf by discriminate.
    destruct (st !! (c :: p)) as [[|content]|] eqn:El; try discriminate.
    pose proof (K1 _ _ El) as El1.
    unfold copy2, read_file, is_dir. rewrite !stat_lookup by discriminate.
    rewrite El1. cbn [rbind]. rewrite bool_decide_eq_true_2 by reflexivity.
    repeat split. exact El1.
Qed.

End Copies.

(** ** Images do not need exiftool *)

(** X18. For an image, [process_media_file] does not depend on exiftool:
    whether it is installed and whatever it would do, the result, the
    filesystem and the printed lines are the same. *)
Theorem images_do_not_need_exiftool
    (json_loads : string -> result json) (int_of_str : string -> result Z)
    (strftime_local : json -> result string) (py_repr : json -> string)
    (piexif_load : string -> result exif) (piexif_dump : exif -> result string)
    (image_save : string -> string -> string -> result string)
    (ver1 ver2 : completed)
    (tool1 tool2 : list string -> fs -> result (Z * string * fs))
    (st : fs) (m folder output_folder : Path) (dry_run : bool) :
  is_image m = true ->
  process_media_file json_loads int_of_str strftime_local py_repr piexif_load
    piexif_dump image_save ver1 tool1 st m folder output_folder dry_run
  = process_media_file json_loads int_of_str strftime_local py_repr piexif_load
      piexif_dump image_save ver2 tool2 st m folder output_folder dry_run.
Proof.
  intros Hi. unfold process_media_file. now rewrite Hi.
Qed.

(** ** Signs and whole degrees *)

Lemma Qabs_opp_eq (v : Q) : Qabs (- v) = Qabs v.
Proof. destruct v as [n d]. unfold Qabs, Qopp. simpl. now rewrite Z.abs_opp. Qed.

(** X19. The conversion drops the sign: [v] and [-v] give the same degrees,
    minutes and seconds, and only the reference letter tells them apart
    (zero is N and E).  No range is checked: a whole number of degrees of
    any size comes back as that many degrees, zero minutes and zero
    seconds. *)
Theorem to_degrees_sign_and_range (v : Q) (k : Z) :
  to_degrees (- v) = to_degrees v
  /\ lat_ref 0 = "N" /\ lon_ref 0 = "E"
  /\ ((0 <= k)%Z -> to_degrees (inject_Z k) = ((k, 1), (0, 1), (0, 100))%Z).
Proof.
  split; [|split; [reflexivity|split; [reflexivity|]]].
  - unfold to_degrees. now rewrite Qabs_opp_eq.
  - intros Hk. destruct (to_degrees_exact (inject_Z k)) as (E & _).
    rewrite E. clear E.
    assert (Ha : Qabs (inject_Z k) = inject_Z k).
    { unfold Qabs, inject_Z. now rewrite Z.abs_eq. }
    rewrite Ha, Qfloor_Z.
    assert (E1 : ((inject_Z k - inject_Z k) * 60 == inject_Z 0)%Q)
      by (unfold inject_Z; ring).
    rewrite (Qfloor_comp _ _ E1), Qfloor_Z.
    assert (E2 : ((inject_Z k - inject_Z k - inject_Z 0 / 60) * 3600 * 100
                  == inject_Z 0)%Q)
      by (unfold inject_Z; field).
    rewrite (Qfloor_comp _ _ E2), Qfloor_Z. reflexivity.
Qed.

(** ** A run stays inside its output folder *)





Section Run.

Variable json_loads : string -> result json.
Variable int_of_str : string -> result Z.
Variable strftime_local : json -> result string.
Variable py_repr : json -> string.
Variable piexif_load : string -> result exif.
Variable piexif_dump : exif -> result string.
Variable image_save : string -> string -> string -> result string.
Variable exiftool_ver : completed.
Variable exiftool : list string -> fs -> result (Z * string * fs).

Local Abbreviation process :=
  (process_media_file json_loads int_of_str strftime_local py_repr piexif_load
     piexif_dump image_save exiftool_ver exiftool).
Local Abbreviation step :=
  (main_step json_loads int_of_str strftime_local py_repr piexif_load
     piexif_dump image_save exiftool_ver exiftool).
Local Abbreviation loop :=
  (main_loop json_loads int_of_str strftime_local py_repr piexif_load
     piexif_dump image_save exiftool_ver exiftool).
Local Abbreviation run :=
  (main json_loads int_of_str strftime_local py_repr piexif_load
     piexif_dump image_save exiftool_ver exiftool).
Local Abbreviation write_image :=
  (update_image_exif int_of_str strftime_local piexif_load piexif_dump image_save).
Local Abbreviation write_video :=
  (update_video_exif py_repr exiftool_ver exiftool).









End Run.

(** * The further properties at concrete inputs *)

Lemma image_exif_keeps_other_tags_witness :
  image_exif Doubles.int_of_str Doubles.strftime_local Doubles.piexif_load
    Doubles.tree ["photos"; "a.jpg"] (JObj [("title", JStr "Trip")])
  = Ok (set_0th ImageIFD.XPTitle (Encoded Utf16le "Trip") empty_exif)
  /\ keeps_other_tags
       (loaded_exif Doubles.piexif_load Doubles.tree ["photos"; "a.jpg"])
       (set_0th ImageIFD.XPTitle (Encoded Utf16le "Trip") empty_exif).
Proof.
  assert (H : image_exif Doubles.int_of_str Doubles.strftime_local Doubles.piexif_load
                Doubles.tree ["photos"; "a.jpg"] (JObj [("title", JStr "Trip")])
              = Ok (set_0th ImageIFD.XPTitle (Encoded Utf16le "Trip") empty_exif))
    by (vm_compute; reflexivity).
  split; [exact H|].
  exact (image_exif_keeps_other_tags _ _ _ _ _ _ _ H).
Defined.

Lemma sidecar_without_image_keys_assigns_nothing_witness :
  (forall k, In k image_keys -> dict_lookup k [("make", JStr "Canon")] = None)
  /\ image_exif Doubles.int_of_str Doubles.strftime_local Doubles.piexif_load
       Doubles.tree ["photos"; "a.jpg"] (JObj [("make", JStr "Canon")])
     = Ok (loaded_exif Doubles.piexif_load Doubles.tree ["photos"; "a.jpg"]).
Proof.
  assert (H : forall k, In k image_keys -> dict_lookup k [("make", JStr "Canon")] = None).
  { intros k Hk. unfold image_keys in Hk. simpl in Hk.
    repeat (destruct Hk as [<-|Hk]; [reflexivity|]). destruct Hk. }
  split; [exact H|].
  exact (sidecar_without_image_keys_assigns_nothing Doubles.int_of_str
           Doubles.strftime_local Doubles.piexif_load Doubles.tree
           ["photos"; "a.jpg"] [("make", JStr "Canon")] H).
Defined.

Lemma timestamp_sets_three_tags_witness :
  convert_timestamp_to_exif Doubles.int_of_str MoreDoubles.fixed_clock (JStr "1700000000")
  = Ok "2023:11:14 22:13:20"
  /\ exists e',
       exif_set_datetime Doubles.int_of_str MoreDoubles.fixed_clock
         (JObj [("photoTakenTime", JObj [("timestamp", JStr "1700000000")])]) empty_exif
       = Ok e'
       /\ ifd_0th e' !! ImageIFD.DateTime = Some (Encoded Utf8 "2023:11:14 22:13:20")
       /\ ifd_Exif e' !! ExifIFD.DateTimeOriginal
          = Some (Encoded Utf8 "2023:11:14 22:13:20")
       /\ ifd_Exif e' !! ExifIFD.DateTimeDigitized
          = Some (Encoded Utf8 "2023:11:14 22:13:20").
Proof.
  split; [reflexivity|].
  exact (proj1 (timestamp_sets_three_tags Doubles.int_of_str MoreDoubles.fixed_clock
                  [("photoTakenTime", JObj [("timestamp", JStr "1700000000")])]
                  [("timestamp", JStr "1700000000")] (JStr "1700000000")
                  "2023:11:14 22:13:20" empty_exif eq_refl eq_refl eq_refl eq_refl)).
Defined.

Lemma exiftool_runs_on_a_verbatim_copy_witness :
  check_exiftool_installed (Exited 0) = true
  /\ read_file Doubles.video_tree ["photos"; "clip.mp4"] = Ok "MP4"
  /\ is_dir Doubles.video_tree ["photos-exif"; "clip.mp4"] = false
  /\ exists (cmd : list string) (st2 : fs),
       video_cmd Doubles.py_repr (JObj [("description", JStr "Beach")])
         ["photos-exif"; "clip.mp4"] = Ok cmd
       /\ st2 !! ["photos-exif"; "clip.mp4"] = Some (File "MP4").
Proof.
  split; [reflexivity|]. split; [reflexivity|]. split; [reflexivity|].
  destruct (update_video_exif Doubles.py_repr (Exited 0) Doubles.exiftool_fails
              Doubles.video_tree ["photos"; "clip.mp4"] ["photos-exif"; "clip.mp4"]
              (JObj [("description", JStr "Beach")])) as [[success st'] out] eqn:E.
  destruct (exiftool_runs_on_a_verbatim_copy Doubles.py_repr (Exited 0)
              Doubles.exiftool_fails Doubles.video_tree ["photos"; "clip.mp4"]
              ["photos-exif"; "clip.mp4"] (JObj [("description", JStr "Beach")])
              "MP4" success st' out eq_refl eq_refl eq_refl E)
    as (cmd & st2 & rc & err & Hc & _ & Hs & _).
  - vm_compute in E. injection E as _ _ <-. discriminate.
  - eauto.
Defined.

Lemma images_do_not_need_exiftool_witness :
  is_image ["photos"; "a.jpg"] = true
  /\ process_media_file JsonRef.loads Doubles.int_of_str Doubles.strftime_local
       Doubles.py_repr Doubles.piexif_load Doubles.piexif_dump Doubles.image_save
       (Exited 0) Doubles.exiftool_ok Doubles.tree ["photos"; "a.jpg"] ["photos"]
       ["photos-exif"] false
     = process_media_file JsonRef.loads Doubles.int_of_str Doubles.strftime_local
         Doubles.py_repr Doubles.piexif_load Doubles.piexif_dump Doubles.image_save
         NotFound Doubles.exiftool_fails Doubles.tree ["photos"; "a.jpg"] ["photos"]
         ["photos-exif"] false.
Proof.
  split; [reflexivity|].
  exact (images_do_not_need_exiftool JsonRef.loads Doubles.int_of_str
           Doubles.strftime_local Doubles.py_repr Doubles.piexif_load
           Doubles.piexif_dump Doubles.image_save (Exited 0) NotFound
           Doubles.exiftool_ok Doubles.exiftool_fails Doubles.tree
           ["photos"; "a.jpg"] ["photos"] ["photos-exif"] false eq_refl).
Defined.


Lemma video_cmd_reads_ten_keys_witness :
  (forall k, In k video_keys ->
     dict_lookup k [("title", JStr "Trip"); ("make", JStr "Canon")]
     = dict_lookup k [("make", JStr "Canon")])
  /\ video_cmd Doubles.py_repr (JObj [("title", JStr "Trip"); ("make", JStr "Canon")])
       ["photos-exif"; "clip.mp4"]
     = video_cmd Doubles.py_repr (JObj [("make", JStr "Canon")])
         ["photos-exif"; "clip.mp4"].
Proof.
  assert (H : forall k, In k video_keys ->
                dict_lookup k [("title", JStr "Trip"); ("make", JStr "Canon")]
                = dict_lookup k [("make", JStr "Canon")]).
  { intros k Hk. unfold video_keys in Hk. simpl in Hk.
    repeat (destruct Hk as [<-|Hk]; [reflexivity|]). destruct Hk. }
  split; [exact H|].
  exact (proj1 (video_cmd_reads_ten_keys Doubles.py_repr
                  [("title", JStr "Trip"); ("make", JStr "Canon")]
                  [("make", JStr "Canon")] ["photos-exif"; "clip.mp4"] H)).
Defined.

Lemma empty_description_is_sent_as_none_witness :
  truthy (JStr "") = false
  /\ exists cmd,
       video_cmd Doubles.py_repr (JObj [("description", JStr "")])
         ["photos-exif"; "clip.mp4"] = Ok cmd
       /\ In ("-Description=" +:+ Doubles.py_repr JNull) cmd.
Proof.
  split; [reflexivity|].
  exact (proj1 (empty_description_is_sent_as_none Doubles.py_repr
                  [("description", JStr "")] (JStr "") ["photos-exif"; "clip.mp4"]
                  empty_exif eq_refl eq_refl eq_refl)).
Defined.
